(** * A shallow embedding of [onlinelinguisticdatabase/controllers/corpora.py]

    The corpora controller of the Online Linguistic Database, modelled as
    programs in a state and exception monad.  The state holds

    - the SQLAlchemy session view of the database ([sess]) and the committed
      database ([stored]); [Session.commit] copies the first into the second,
      and the end of a request discards what was not committed;
    - the file system, as an association list from paths to entries;
    - the HTTP status of the Pylons [response] object, and the request's
      [session['user']] and clock ([h.now()]).

    Python exceptions are values of [exn]; an exception that no handler of
    the controller catches becomes an HTTP 500 response. *)

From Stdlib Require Import String Ascii List ZArith Bool Lia.
Import ListNotations.
Open Scope Z_scope.

(** ** Python values used by the controller *)

Inductive exn : Type :=
| NameError (name : string)
| KeyError
| IndexError
| TypeError
| ValueError
| AttributeError
| OSError
| FlushError
| JSONDecodeError
| Invalid
| OtherError (msg : string).

Inductive res (A : Type) : Type :=
| Ok (a : A)
| Raise (e : exn).
Arguments Ok {A} a.
Arguments Raise {A} e.

(** Decimal rendering of an integer, as Python's ['%d' % n] and [str(n)]. *)
Fixpoint digits_of_nat (fuel n : nat) (acc : string) : string :=
  match fuel with
  | O => acc
  | S fuel' =>
      let d := String (ascii_of_nat (48 + Nat.modulo n 10)) EmptyString in
      if Nat.ltb n 10 then (d ++ acc)%string
      else digits_of_nat fuel' (Nat.div n 10) (d ++ acc)%string
  end.

Definition str_of_Z (z : Z) : string :=
  let n := Z.to_nat (Z.abs z) in
  if z <? 0 then ("-" ++ digits_of_nat (S n) n EmptyString)%string
  else digits_of_nat (S n) n EmptyString.

(** Python's [int(s)] on a string: an optional sign followed by decimal
    digits; anything else raises [ValueError] (surrounding blanks, which
    [int] strips, are not modelled). *)
Fixpoint parse_digits (s : string) (acc : Z) : option Z :=
  match s with
  | EmptyString => Some acc
  | String c s' =>
      let n := Z.of_nat (nat_of_ascii c) in
      if (48 <=? n) && (n <=? 57) then parse_digits s' (acc * 10 + (n - 48))
      else None
  end.

Definition py_int (s : string) : option Z :=
  match s with
  | EmptyString => None
  | String "-"%char EmptyString => None
  | String "+"%char EmptyString => None
  | String "-"%char s' => option_map Z.opp (parse_digits s' 0)
  | String "+"%char s' => parse_digits s' 0
  | _ => parse_digits s 0
  end.

(** Python values that reach a ['%d'] conversion. *)
Inductive pyval : Type :=
| PyInt (n : Z)
| PyStr (s : string).

(** ['%d' % v]: a [str] or [unicode] argument raises [TypeError]
    ("%d format: a number is required"). *)
Definition fmt_d (v : pyval) : res string :=
  match v with
  | PyInt n => Ok (str_of_Z n)
  | PyStr _ => Raise TypeError
  end.

(** ** The data model (the ORM objects the controller touches) *)

Record user : Type := mkUser {
  user_id : Z;
  role : string
}.

Record tag : Type := mkTag {
  tag_id : Z;
  tag_name : string
}.

Record form : Type := mkForm {
  form_id : Z;
  form_transcription : string;
  form_tags : list tag
}.

Record formSearch : Type := mkFormSearch {
  formSearch_id : Z;
  formSearch_search : string   (* the JSON search expression *)
}.

Record corpusFile : Type := mkCorpusFile {
  cf_id : Z;
  cf_filename : string;
  cf_format : string;
  cf_restricted : bool;
  cf_creator : Z;
  cf_modifier : Z;
  cf_datetimeCreated : Z;
  cf_datetimeModified : Z
}.

(** A corpus.  The many-to-many collections hold Python values that may be
    [None] (assigning a list containing [None] to a relationship is
    possible), hence the [option]s. *)
Record corpus : Type := mkCorpus {
  c_id : Z;
  c_name : string;
  c_description : string;
  c_content : string;
  c_formSearch : option formSearch;
  c_tags : list (option tag);
  c_forms : list (option form);
  c_files : list corpusFile;
  c_modifier : Z;
  c_datetimeModified : Z
}.

(** A database: the corpora, the forms table and the corpus backups.  A
    backup is the dictionary representation of a corpus, which this model
    keeps as the corpus value itself. *)
Record db : Type := mkDb {
  corpora : list corpus;
  forms_table : list form;
  backups : list corpus
}.

(** A file-system entry: a text file, the gzip compression of a text, or a
    directory. *)
Inductive entry : Type :=
| File (contents : string)
| GzFile (contents : string)
| Dir.

Record state : Type := mkState {
  sess : db;
  stored : db;
  fs : list (string * entry);
  status : Z;
  now_ : Z;
  session_user : option user
}.

(** The responses the controller actions return (the bodies [h.jsonify]
    renders, or the file [servefile] forwards to). *)
Inductive response : Type :=
| RCorpus (c : corpus)            (* a corpus model *)
| RCorpusDict (c : corpus)        (* [corpus.getDict()] *)
| REdit (c : corpus)              (* [{'data': ..., 'corpus': corpus}] *)
| RError (msg : string)           (* [{'error': msg}] *)
| RErrors (e : exn)               (* [{'errors': e.unpack_errors()}] *)
| RJSONDecodeError                (* [h.JSONDecodeErrorResponse] *)
| RJsonError (msg : string)       (* [json.dumps({'error': msg})] *)
| RUnauthorized                   (* [json.dumps(h.unauthorizedMsg)] *)
| RFile (path : string)           (* [forward(FileApp(path))] *)
| RBackups (l : list corpus).     (* a list of backups *)

(** ** The state and exception monad *)

Definition M (A : Type) : Type := state -> res A * state.

Definition ret {A} (a : A) : M A := fun s => (Ok a, s).

Definition bind {A B} (m : M A) (k : A -> M B) : M B :=
  fun s => match m s with
           | (Ok a, s') => k a s'
           | (Raise e, s') => (Raise e, s')
           end.

Notation "x <- m ;; k" := (bind m (fun x => k))
  (at level 61, m at next level, right associativity).
Notation "m ;; k" := (bind m (fun _ => k))
  (at level 61, right associativity).

Definition raise {A} (e : exn) : M A := fun s => (Raise e, s).

(** [try: m  except Exception, e: handler(e)] *)
Definition try_except {A} (m : M A) (handler : exn -> M A) : M A :=
  fun s => match m s with
           | (Raise e, s') => handler e s'
           | r => r
           end.

Definition lift {A} (r : res A) : M A :=
  match r with Ok a => ret a | Raise e => raise e end.

Definition gets {A} (f : state -> A) : M A := fun s => (Ok (f s), s).

Definition modify (f : state -> state) : M unit := fun s => (Ok tt, f s).

Fixpoint mapM {A B} (f : A -> M B) (l : list A) : M (list B) :=
  match l with
  | [] => ret []
  | x :: l' => y <- f x;; ys <- mapM f l';; ret (y :: ys)
  end.

(** ** State updates *)

Definition set_sess (d : db) (s : state) : state :=
  mkState d (stored s) (fs s) (status s) (now_ s) (session_user s).
Definition set_stored (d : db) (s : state) : state :=
  mkState (sess s) d (fs s) (status s) (now_ s) (session_user s).
Definition set_fs (f : list (string * entry)) (s : state) : state :=
  mkState (sess s) (stored s) f (status s) (now_ s) (session_user s).

(** [response.status_int = n] *)
Definition set_status (n : Z) : M unit :=
  modify (fun s => mkState (sess s) (stored s) (fs s) n (now_ s) (session_user s)).

(** [h.now()] *)
Definition h_now : M Z := gets now_.

(** [session['user']]: a [KeyError] when nobody is logged in. *)
Definition get_session_user : M user :=
  fun s => match session_user s with
           | Some u => (Ok u, s)
           | None => (Raise KeyError, s)
           end.

(** ** The session and the database *)

Definition find_corpus (n : Z) (d : db) : option corpus :=
  find (fun c => c_id c =? n) (corpora d).

Definition map_corpora (f : list corpus -> list corpus) (d : db) : db :=
  mkDb (f (corpora d)) (forms_table d) (backups d).

(** Mutating the attributes of the corpus object with id [n], which lives
    in the session. *)
Definition modify_corpus (n : Z) (f : corpus -> corpus) : M unit :=
  modify (fun s => set_sess (map_corpora
    (map (fun c => if c_id c =? n then f c else c)) (sess s)) s).

Definition get_corpus (n : Z) : M (option corpus) :=
  gets (fun s => find_corpus n (sess s)).

(** [Session.query(Corpus).get(id)] with the [id] string of the URL: the
    primary key is an integer column, and a string that does not denote an
    integer matches no row (it is compared as text to integers). *)
Definition query_get (id : string) : M (option corpus) :=
  match py_int id with
  | Some n => get_corpus n
  | None => ret None
  end.

(** [Session.add(CorpusBackup().vivify(corpusDict))] *)
Definition backupCorpus (corpusDict : corpus) : M unit :=
  modify (fun s => let d := sess s in
    set_sess (mkDb (corpora d) (forms_table d) (backups d ++ [corpusDict])) s).

(** [Session.delete(corpus)] *)
Definition session_delete (n : Z) : M unit :=
  modify (fun s => set_sess (map_corpora
    (filter (fun c => negb (c_id c =? n))) (sess s)) s).

(** SQLAlchemy refuses to flush a [None] found in a relationship
    collection ("Can't flush None value found in collection"). *)
Definition flush_ok (d : db) : bool :=
  forallb (fun c => forallb (fun t : option tag => if t then true else false) (c_tags c)
                    && forallb (fun f : option form => if f then true else false) (c_forms c))
          (corpora d).

(** [Session.commit()] *)
Definition session_commit : M unit :=
  fun s => if flush_ok (sess s) then (Ok tt, set_stored (sess s) s)
           else (Raise FlushError, s).

(** ** The file system *)

Definition fs_lookup (p : string) (f : list (string * entry)) : option entry :=
  option_map snd (find (fun pe => String.eqb (fst pe) p) f).

Definition fs_set (p : string) (e : entry) (f : list (string * entry))
  : list (string * entry) :=
  (p, e) :: filter (fun pe => negb (String.eqb (fst pe) p)) f.

(** [os.path.join(a, b)] for a relative [b] *)
Definition os_path_join (a b : string) : string := (a ++ "/" ++ b)%string.

Fixpoint split_at_slash (l : list ascii) : list ascii * list ascii :=
  match l with
  | [] => ([], [])
  | c :: l' => if Ascii.eqb c "/"%char then ([], l')
               else let (t, hd) := split_at_slash l' in (c :: t, hd)
  end.

(** [os.path.split(p)]: the parts before and after the last slash. *)
Definition os_path_split (p : string) : string * string :=
  let (t, hd) := split_at_slash (rev (list_ascii_of_string p)) in
  (string_of_list_ascii (rev hd), string_of_list_ascii (rev t)).

Definition os_path_exists (p : string) : M bool :=
  gets (fun s => match fs_lookup p (fs s) with Some _ => true | None => false end).

(** [codecs.open(p, 'w', 'utf8')]: truncates or creates the file; the
    directory must exist. *)
Definition open_w (p : string) : M unit :=
  fun s => match fs_lookup (fst (os_path_split p)) (fs s), fs_lookup p (fs s) with
           | Some Dir, Some Dir => (Raise OSError, s)
           | Some Dir, _ => (Ok tt, set_fs (fs_set p (File EmptyString) (fs s)) s)
           | _, _ => (Raise OSError, s)
           end.

(** [f.write(text)] on a file opened by [open_w]. *)
Definition write_f (p text : string) : M unit :=
  fun s => match fs_lookup p (fs s) with
           | Some (File t) => (Ok tt, set_fs (fs_set p (File (t ++ text)) (fs s)) s)
           | _ => (Raise OSError, s)
           end.

(** [shutil.rmtree(p)]: removes a directory and everything below it; on a
    regular file or a missing path, [os.listdir] fails and the error is
    raised. *)
Definition rmtree (p : string) : M unit :=
  fun s => match fs_lookup p (fs s) with
           | Some Dir =>
               (Ok tt, set_fs (filter (fun pe =>
                  negb (String.eqb (fst pe) p
                        || String.prefix (p ++ "/") (fst pe))) (fs s)) s)
           | _ => (Raise OSError, s)
           end.

(** [destroyFile(filePath)]: [try: rmtree(filePath) except Exception: pass] *)
Definition destroyFile (p : string) : M unit :=
  try_except (rmtree p) (fun _ => ret tt).

(** Modelled from the spec: [h.compressFile] (in [lib/helpers.py], outside
    this excerpt), the step that "gzip-compresses" the written corpus file:
    it writes the compression of the file at [p] to [p.gz]. *)
Definition compressFile (p : string) : M unit :=
  fun s => match fs_lookup p (fs s) with
           | Some (File t) =>
               (Ok tt, set_fs (fs_set (p ++ ".gz") (GzFile t) (fs s)) s)
           | _ => (Raise OSError, s)
           end.

(** ** The helpers module [h] and the other collaborators of the controller *)

(** An entry of [h.corpusFormats]. *)
Record corpusFormat : Type := mkCorpusFormat {
  extension : string;
  suffix : string;
  writer : form -> res string
}.

(** The result of [CorpusSchema().to_python(values, state)]. *)
Record corpus_data : Type := mkCorpusData {
  d_name : string;
  d_description : string;
  d_content : string;
  d_formSearch : option formSearch;
  d_tags : list (option tag);
  d_forms : list (option form)
}.

Record helpers : Type := mkHelpers {
  (** [h.getOLDDirectoryPath('corpora', config=config)] *)
  corpora_dir : string;
  (** [h.corpusFormats] *)
  corpusFormats : string -> option corpusFormat;
  (** [h.formReferencePattern.findall]: the matched id strings, in the
      order of their occurrences *)
  formReferencePattern_findall : string -> list string;
  (** [SQLAQueryBuilder().getSQLAQuery(json.loads(search)).all()], run
      over the forms table *)
  runFormSearch : list form -> string -> res (list form);
  (** [h.normalize] *)
  normalize : string -> string;
  (** the ids of the users in [h.getUnrestrictedUsers()] *)
  getUnrestrictedUsers : list Z;
  (** [json.loads] of the request body, then [CorpusSchema().to_python]
      (raising [JSONDecodeError] or [Invalid]) *)
  corpusSchema : string -> res corpus_data;
  (** [json.loads] of the request body, then
      [CorpusFormatSchema.to_python(values)['format']] *)
  corpusFormatSchema : string -> res string
}.

Section Controller.

Variable h : helpers.

(** ** Paths *)

Definition getCorpusDirPath (c : corpus) : string :=
  os_path_join (corpora_dir h) ("corpus_" ++ str_of_Z (c_id c)).

(** [getCorpusFilePath]: [h.corpusFormats[format_]] raises [KeyError] for
    an unknown format. *)
Definition getCorpusFilePath (c : corpus) (format_ : string) : M string :=
  match corpusFormats h format_ with
  | Some f =>
      ret (os_path_join (getCorpusDirPath c)
             ("corpus_" ++ str_of_Z (c_id c) ++ suffix f ++ "." ++ extension f))
  | None => raise KeyError
  end.

(** ** [getFormReferences] *)

Definition py_int_m (s : string) : M Z :=
  match py_int s with Some n => ret n | None => raise ValueError end.

(** [if corpusContent: return [int(id) for id in
    h.formReferencePattern.findall(corpusContent)]; return []] *)
Definition getFormReferences (corpusContent : string) : M (list Z) :=
  match corpusContent with
  | EmptyString => ret []
  | _ => mapM py_int_m (formReferencePattern_findall h corpusContent)
  end.

(** ** [writeToFile] *)

(** ["restricted" in [t.name for t in form.tags]] *)
Definition has_restricted_tag (f : form) : bool :=
  existsb (fun t => String.eqb (tag_name t) "restricted") (form_tags f).

(** One iteration's update of [restricted]:
    [if not restricted and "restricted" in ...: restricted = True] *)
Definition restricted_step (restricted : bool) (f : form) : bool :=
  if negb restricted && has_restricted_tag f then true else restricted.

(** [for form in forms: ...; f.write(writer(form))] *)
Fixpoint write_forms (path : string) (wr : form -> res string)
    (forms : list form) (restricted : bool) : M bool :=
  match forms with
  | [] => ret restricted
  | form :: rest =>
      let restricted' := restricted_step restricted form in
      text <- lift (wr form);;
      write_f path text;;
      write_forms path wr rest restricted'
  end.

(** [forms = dict([(f.id, f) for f in corpus.forms])]: [f.id] on [None]
    raises [AttributeError]. *)
Fixpoint build_forms_dict (l : list (option form)) : M (list (Z * form)) :=
  match l with
  | [] => ret []
  | None :: _ => raise AttributeError
  | Some f :: l' => d <- build_forms_dict l';; ret ((form_id f, f) :: d)
  end.

(** [forms[id]]: the last pair with key [id] wins, as in [dict(pairs)]. *)
Definition dict_get (d : list (Z * form)) (k : Z) : option form :=
  option_map snd (find (fun p => fst p =? k) (rev d)).

(** [for id in formReferences: form = forms[id]; ...; f.write(writer(form))] *)
Fixpoint write_refs (path : string) (wr : form -> res string)
    (d : list (Z * form)) (refs : list Z) (restricted : bool) : M bool :=
  match refs with
  | [] => ret restricted
  | id :: rest =>
      match dict_get d id with
      | None => raise KeyError
      | Some form =>
          let restricted' := restricted_step restricted form in
          text <- lift (wr form);;
          write_f path text;;
          write_refs path wr d rest restricted'
      end
  end.

(** The first [try] block of [writeToFile] (lines 406-426): create the
    corpus file on the file system and return [restricted].  It reads the
    corpus object, which nothing mutates before this block ends. *)
Definition createCorpusFileOnDisk (corpus : corpus) (corpusFilePath : string)
    (format_ : string) : M bool :=
  wr <- (match corpusFormats h format_ with
         | Some f => ret (writer f)
         | None => raise KeyError
         end);;
  restricted <-
    (match c_formSearch corpus with
     | Some fsearch =>
         tbl <- gets (fun s => forms_table (sess s));;
         forms <- lift (runFormSearch h tbl (formSearch_search fsearch));;
         open_w corpusFilePath;;
         write_forms corpusFilePath wr forms false
     | None =>
         formReferences <- getFormReferences (c_content corpus);;
         forms <- build_forms_dict (c_forms corpus);;
         open_w corpusFilePath;;
         write_refs corpusFilePath wr forms formReferences false
     end);;
  compressFile corpusFilePath;;
  ret restricted.

(** The names visible inside [writeToFile]: its own local names (the
    parameters, the nested functions and every name it assigns, including
    the variables its Python 2 list comprehensions leak), the globals of
    [corpora.py], and the Python 2 builtins. *)
Definition writeToFile_locals : list string :=
  ["corpus"; "format_"; "errorMsg"; "updateCorpusFile";
   "generateNewCorpusFile"; "destroyFile"; "corpusFilePath"; "update";
   "restricted"; "writer"; "queryBuilder"; "forms"; "f"; "form"; "t";
   "formReferences"; "id"; "e"; "now"; "user"; "corpusFilename"]%string.

Definition corpora_module_globals : list string :=
  ["log"; "logging"; "datetime"; "re"; "os"; "codecs"; "uuid4"; "rmtree";
   "json"; "letters"; "digits"; "sample"; "FileApp"; "request"; "response";
   "session"; "app_globals"; "config"; "restrict"; "forward"; "Invalid";
   "OperationalError"; "InvalidRequestError"; "asc"; "joinedload";
   "BaseController"; "CorpusSchema"; "CorpusFormatSchema"; "h";
   "SQLAQueryBuilder"; "OLDSearchParseError"; "Session"; "Corpus";
   "CorpusBackup"; "CorpusFile"; "Form"; "CorporaController";
   "authorizedToAccessCorpusFile"; "getFormReferences"; "writeToFile";
   "backupCorpus"; "createNewCorpus"; "updateCorpus"; "createCorpusDir";
   "getCorpusFilePath"; "getCorpusDirPath"; "removeCorpusDirectory";
   "getDataForNewEdit"; "__name__"; "__file__"; "__doc__"; "__builtins__";
   "__package__"]%string.

Definition python2_builtins : list string :=
  ["abs"; "all"; "any"; "apply"; "basestring"; "bin"; "bool"; "buffer";
   "bytearray"; "bytes"; "callable"; "chr"; "classmethod"; "cmp"; "coerce";
   "compile"; "complex"; "copyright"; "credits"; "delattr"; "dict"; "dir";
   "divmod"; "enumerate"; "eval"; "execfile"; "exit"; "file"; "filter";
   "float"; "format"; "frozenset"; "getattr"; "globals"; "hasattr"; "hash";
   "help"; "hex"; "id"; "input"; "int"; "intern"; "isinstance";
   "issubclass"; "iter"; "len"; "license"; "list"; "locals"; "long"; "map";
   "max"; "memoryview"; "min"; "next"; "object"; "oct"; "open"; "ord";
   "pow"; "print"; "property"; "quit"; "range"; "raw_input"; "reduce";
   "reload"; "repr"; "reversed"; "round"; "set"; "setattr"; "slice";
   "sorted"; "staticmethod"; "str"; "sum"; "super"; "tuple"; "type";
   "unichr"; "unicode"; "vars"; "xrange"; "zip"; "True"; "False"; "None";
   "NotImplemented"; "Ellipsis"; "__debug__"; "__import__";
   "ArithmeticError"; "AssertionError"; "AttributeError"; "BaseException";
   "BufferError"; "BytesWarning"; "DeprecationWarning"; "EOFError";
   "EnvironmentError"; "Exception"; "FloatingPointError"; "FutureWarning";
   "GeneratorExit"; "IOError"; "ImportError"; "ImportWarning";
   "IndentationError"; "IndexError"; "KeyError"; "KeyboardInterrupt";
   "LookupError"; "MemoryError"; "NameError"; "NotImplementedError";
   "OSError"; "OverflowError"; "PendingDeprecationWarning";
   "ReferenceError"; "RuntimeError"; "RuntimeWarning"; "StandardError";
   "StopIteration"; "SyntaxError"; "SyntaxWarning"; "SystemError";
   "SystemExit"; "TabError"; "TypeError"; "UnboundLocalError";
   "UnicodeDecodeError"; "UnicodeEncodeError"; "UnicodeError";
   "UnicodeTranslateError"; "UnicodeWarning"; "UserWarning"; "ValueError";
   "Warning"; "ZeroDivisionError"]%string.

Definition writeToFile_scope : list string :=
  writeToFile_locals ++ corpora_module_globals ++ python2_builtins.

(** Evaluating the name [n] inside [writeToFile]. *)
Definition py_load (n : string) : M unit :=
  if existsb (String.eqb n) writeToFile_scope then ret tt
  else raise (NameError n).

Definition set_files_dtm (fl : list corpusFile) (dtm : Z) (c : corpus) : corpus :=
  mkCorpus (c_id c) (c_name c) (c_description c) (c_content c)
    (c_formSearch c) (c_tags c) (c_forms c) fl (c_modifier c) dtm.

(** The body of the nested [updateCorpusFile]; it reads [corpusFilename],
    [user] and [now] from the enclosing [writeToFile]. *)
Definition updateCorpusFile_body (corpusId : Z) (corpusFilename : string)
    (u : user) (now : Z) (restricted : bool) : M unit :=
  oc <- get_corpus corpusId;;
  match oc with
  | None => raise AttributeError
  | Some c =>
      match filter (fun cf => String.eqb (cf_filename cf) corpusFilename)
                   (c_files c) with
      | [] => raise IndexError
      | cf :: _ =>
          let cf' := mkCorpusFile (cf_id cf) (cf_filename cf) (cf_format cf)
                       restricted (cf_creator cf) (user_id u)
                       (cf_datetimeCreated cf) now in
          modify_corpus corpusId (fun c =>
            set_files_dtm
              (map (fun x => if cf_id x =? cf_id cf then cf' else x) (c_files c))
              now c)
      end
  end.

(** The call [updateCorpusFile(corpus, filename, modifier, datetimeModified,
    restricted)] of line 439: Python evaluates the arguments from left to
    right before running the body. *)
Definition updateCorpusFile_call (corpusId : Z) (corpusFilename : string)
    (u : user) (now : Z) (restricted : bool) : M unit :=
  py_load "corpus";;
  py_load "filename";;
  py_load "modifier";;
  py_load "datetimeModified";;
  py_load "restricted";;
  updateCorpusFile_body corpusId corpusFilename u now restricted.

(** The id the database gives the next corpus file row. *)
Definition next_file_id (s : state) : Z :=
  1 + fold_left (fun m c => fold_left (fun m cf => Z.max m (cf_id cf)) (c_files c) m)
                (corpora (sess s)) 0.

(** The nested [generateNewCorpusFile]. *)
Definition generateNewCorpusFile (corpusId : Z) (filename format_ : string)
    (creator : user) (datetimeCreated : Z) (restricted : bool) : M unit :=
  newId <- gets next_file_id;;
  let cf := mkCorpusFile newId filename format_ restricted (user_id creator)
              (user_id creator) datetimeCreated datetimeCreated in
  modify_corpus corpusId (fun c =>
    set_files_dtm (c_files c ++ [cf]) datetimeCreated c).

Definition dq : string := String "034"%char EmptyString.

Definition exn_str (e : exn) : string :=
  match e with
  | NameError n => "global name '" ++ n ++ "' is not defined"
  | KeyError => "KeyError"
  | IndexError => "list index out of range"
  | TypeError => "TypeError"
  | ValueError => "ValueError"
  | AttributeError => "AttributeError"
  | OSError => "OSError"
  | FlushError => "FlushError"
  | JSONDecodeError => "JSONDecodeError"
  | Invalid => "Invalid"
  | OtherError m => m
  end%string.

(** [errorMsg(msg)] *)
Definition errorMsg (c : corpus) (format_ : string) (e : exn) : string :=
  ("Unable to write corpus " ++ str_of_Z (c_id c) ++ " to file with format "
   ++ dq ++ format_ ++ dq ++ ". (" ++ exn_str e ++ ")")%string.

(** [writeToFile(corpus, format_)] *)
Definition writeToFile (corpus : corpus) (format_ : string) : M response :=
  corpusFilePath <- getCorpusFilePath corpus format_;;
  update <- os_path_exists corpusFilePath;;
  r1 <- try_except
          (restricted <- createCorpusFileOnDisk corpus corpusFilePath format_;;
           ret (inl restricted))
          (fun e => destroyFile corpusFilePath;;
                    set_status 400;;
                    ret (inr (RError (errorMsg corpus format_ e))));;
  match r1 with
  | inr resp => ret resp
  | inl restricted =>
      r2 <- try_except
              (now <- h_now;;
               user <- get_session_user;;
               let corpusFilename := snd (os_path_split corpusFilePath) in
               (if update then
                  try_except
                    (updateCorpusFile_call (c_id corpus) corpusFilename user now
                       restricted)
                    (fun _ => generateNewCorpusFile (c_id corpus) corpusFilename
                                format_ user now restricted)
                else
                  generateNewCorpusFile (c_id corpus) corpusFilename format_ user
                    now restricted);;
               ret None)
              (fun e => destroyFile corpusFilePath;;
                        set_status 400;;
                        ret (Some (RError (errorMsg corpus format_ e))));;
      match r2 with
      | Some resp => ret resp
      | None =>
          session_commit;;
          oc <- get_corpus (c_id corpus);;
          ret (RCorpus (match oc with Some c' => c' | None => corpus end))
      end
  end.

(** ** Backups and updates *)

(** Modelled from the spec: [Corpus.getDict] (in the model package, outside
    this excerpt), "a Corpus's dictionary representation", of which a
    CorpusBackup is an immutable snapshot; the snapshot is the corpus value
    at the time of the call. *)
Definition getDict (c : corpus) : corpus := c.

Definition set_name (v : string) (c : corpus) : corpus :=
  mkCorpus (c_id c) v (c_description c) (c_content c) (c_formSearch c)
    (c_tags c) (c_forms c) (c_files c) (c_modifier c) (c_datetimeModified c).
Definition set_description (v : string) (c : corpus) : corpus :=
  mkCorpus (c_id c) (c_name c) v (c_content c) (c_formSearch c)
    (c_tags c) (c_forms c) (c_files c) (c_modifier c) (c_datetimeModified c).
Definition set_content (v : string) (c : corpus) : corpus :=
  mkCorpus (c_id c) (c_name c) (c_description c) v (c_formSearch c)
    (c_tags c) (c_forms c) (c_files c) (c_modifier c) (c_datetimeModified c).
Definition set_formSearch (v : option formSearch) (c : corpus) : corpus :=
  mkCorpus (c_id c) (c_name c) (c_description c) (c_content c) v
    (c_tags c) (c_forms c) (c_files c) (c_modifier c) (c_datetimeModified c).
Definition set_tags (v : list (option tag)) (c : corpus) : corpus :=
  mkCorpus (c_id c) (c_name c) (c_description c) (c_content c)
    (c_formSearch c) v (c_forms c) (c_files c) (c_modifier c)
    (c_datetimeModified c).
Definition set_forms (v : list (option form)) (c : corpus) : corpus :=
  mkCorpus (c_id c) (c_name c) (c_description c) (c_content c)
    (c_formSearch c) (c_tags c) v (c_files c) (c_modifier c)
    (c_datetimeModified c).
Definition set_modifier_dtm (u : Z) (dtm : Z) (c : corpus) : corpus :=
  mkCorpus (c_id c) (c_name c) (c_description c) (c_content c)
    (c_formSearch c) (c_tags c) (c_forms c) (c_files c) u dtm.

(** The corpus object with id [n]; it is in the session whenever the
    controller calls this. *)
Definition current (n : Z) : M corpus :=
  oc <- get_corpus n;;
  match oc with Some c => ret c | None => raise AttributeError end.

(** Modelled from the spec: [h.setAttr(obj, name, value, changed)] (in
    [lib/helpers.py], outside this excerpt), the compare-and-set behind
    "update produces exactly one new backup per change": the attribute is
    assigned, and [True] returned, only when its value differs; otherwise
    [changed] is returned. *)
Definition setAttr {A} (eqb : A -> A -> bool) (get : corpus -> A)
    (set : A -> corpus -> corpus) (n : Z) (value : A) (changed : bool)
    : M bool :=
  c <- current n;;
  if eqb (get c) value then ret changed
  else modify_corpus n (set value);; ret true.

(** Model objects compare by identity, i.e. by primary key. *)
Definition opt_id_eqb (a b : option Z) : bool :=
  match a, b with
  | Some x, Some y => x =? y
  | None, None => true
  | _, _ => false
  end.

Definition formSearch_eqb (a b : option formSearch) : bool :=
  opt_id_eqb (option_map formSearch_id a) (option_map formSearch_id b).

(** [set(l1) != set(l2)] on collections of model objects or [None]. *)
Definition set_neq (l1 l2 : list (option Z)) : bool :=
  negb (forallb (fun x => existsb (opt_id_eqb x) l2) l1
        && forallb (fun x => existsb (opt_id_eqb x) l1) l2).

Definition form_keys (l : list (option form)) : list (option Z) :=
  map (option_map form_id) l.
Definition tag_keys (l : list (option tag)) : list (option Z) :=
  map (option_map tag_id) l.

(** [[x for x in l if x]] *)
Definition truthy {A} (l : list (option A)) : list (option A) :=
  filter (fun x : option A => if x then true else false) l.

(** [updateCorpus(corpus, data)]: [Some corpus] for the updated corpus,
    [None] for the [False] it returns when nothing changed. *)
Definition updateCorpus (n : Z) (data : corpus_data) : M (option corpus) :=
  let changed := false in
  changed <- setAttr String.eqb c_name set_name n
               (normalize h (d_name data)) changed;;
  changed <- setAttr String.eqb c_description set_description n
               (normalize h (d_description data)) changed;;
  changed <- setAttr String.eqb c_content set_content n
               (normalize h (d_content data)) changed;;
  changed <- setAttr formSearch_eqb c_formSearch set_formSearch n
               (d_formSearch data) changed;;
  modify_corpus n (set_tags (d_tags data));;
  modify_corpus n (set_forms (d_forms data));;
  let formsToAdd := truthy (d_forms data) in
  let tagsToAdd := truthy (d_tags data) in
  c <- current n;;
  changed <- (if set_neq (form_keys formsToAdd) (form_keys (c_forms c))
              then modify_corpus n (set_forms formsToAdd);; ret true
              else ret changed);;
  c <- current n;;
  changed <- (if set_neq (tag_keys tagsToAdd) (tag_keys (c_tags c))
              then modify_corpus n (set_tags tagsToAdd);; ret true
              else ret changed);;
  if changed then
    u <- get_session_user;;
    now <- h_now;;
    modify_corpus n (set_modifier_dtm (user_id u) now);;
    c <- current n;;
    ret (Some c)
  else ret None.

(** ** The controller actions *)

Definition notFound (id : string) : string :=
  ("There is no corpus with id " ++ id)%string.

Definition notNewMsg : string :=
  "The update request failed because the submitted data were not new.".

(** [except h.JSONDecodeError: ...  except Invalid, e: ...]; any other
    exception propagates. *)
Definition json_invalid_handler (e : exn) : M response :=
  match e with
  | JSONDecodeError => set_status 400;; ret RJSONDecodeError
  | Invalid => set_status 400;; ret (RErrors Invalid)
  | _ => raise e
  end.

(** [CorporaController.update(id)] *)
Definition update (id : string) (body : string) : M response :=
  n <- py_int_m id;;
  oc <- get_corpus n;;
  match oc with
  | Some corpus =>
      try_except
        (data <- lift (corpusSchema h body);;
         let corpusDict := getDict corpus in
         r <- updateCorpus (c_id corpus) data;;
         match r with
         | Some corpus' =>
             backupCorpus corpusDict;;
             session_commit;;
             ret (RCorpus corpus')
         | None =>
             set_status 400;;
             ret (RError notNewMsg)
         end)
        json_invalid_handler
  | None => set_status 404;; ret (RError (notFound id))
  end.

(** [removeCorpusDirectory(corpus)] *)
Definition removeCorpusDirectory (c : corpus) : M (option string) :=
  try_except (rmtree (getCorpusDirPath c);; ret (Some (getCorpusDirPath c)))
             (fun _ => ret None).

(** [CorporaController.delete(id)] *)
Definition delete (id : string) : M response :=
  oc <- query_get id;;
  match oc with
  | Some corpus =>
      let corpusDict := getDict corpus in
      backupCorpus corpusDict;;
      session_delete (c_id corpus);;
      session_commit;;
      removeCorpusDirectory corpus;;
      ret (RCorpusDict corpusDict)
  | None => set_status 404;; ret (RError (notFound id))
  end.

(** [CorporaController.show(id)] *)
Definition show (id : string) : M response :=
  oc <- query_get id;;
  match oc with
  | Some corpus => ret (RCorpus corpus)
  | None => set_status 404;; ret (RError (notFound id))
  end.

(** [CorporaController.edit(id)]; [getDataForNewEdit] only reads. *)
Definition edit (id : string) : M response :=
  oc <- query_get id;;
  match oc with
  | Some corpus => ret (REdit corpus)
  | None => set_status 404;; ret (RError (notFound id))
  end.

(** [CorporaController.writetofile(id)] *)
Definition writetofile (id : string) (body : string) : M response :=
  oc <- query_get id;;
  match oc with
  | Some corpus =>
      try_except
        (format_ <- lift (corpusFormatSchema h body);;
         writeToFile corpus format_)
        json_invalid_handler
  | None => set_status 404;; ret (RError (notFound id))
  end.

(** [authorizedToAccessCorpusFile(user, corpusFile)] *)
Definition authorizedToAccessCorpusFile (u : user) (cf : corpusFile) : bool :=
  if cf_restricted cf && negb (String.eqb (role u) "administrator")
     && negb (existsb (Z.eqb (user_id u)) (getUnrestrictedUsers h))
  then false else true.

(** [CorporaController.servefile(id, fileId)]; both ids are the strings of
    the URL. *)
Definition servefile (id fileId : string) : M response :=
  oc <- query_get id;;
  match oc with
  | Some corpus =>
      try_except
        (n <- py_int_m fileId;;
         match filter (fun cf => cf_id cf =? n) (c_files corpus) with
         | [] => raise IndexError
         | corpusFile :: _ =>
             let corpusFilePath := os_path_join (getCorpusDirPath corpus)
                                     (cf_filename corpusFile ++ ".gz") in
             u <- get_session_user;;
             if authorizedToAccessCorpusFile u corpusFile
             then ret (RFile corpusFilePath)
             else set_status 403;; ret RUnauthorized
         end)
        (fun _ =>
           set_status 400;;
           a <- lift (fmt_d (PyStr fileId));;
           b <- lift (fmt_d (PyStr id));;
           ret (RJsonError ("Unable to serve corpus file " ++ a
                            ++ " of corpus " ++ b)))
  | None => set_status 404;; ret (RJsonError (notFound id))
  end.

End Controller.

(** ** Requests

    A request starts with a fresh session (which sees the committed
    database) and the default status 200; an exception that escapes the
    action becomes a 500 response; at the end of the request the session is
    removed, discarding what was not committed. *)
Definition fresh (s : state) : state :=
  mkState (stored s) (stored s) (fs s) 200 (now_ s) (session_user s).

Definition request (m : M response) (s : state)
  : (Z * option response) * state :=
  let (r, s1) := m (fresh s) in
  let s2 := set_sess (stored s1) s1 in
  match r with
  | Ok resp => ((status s1, Some resp), s2)
  | Raise _ => ((500, None), s2)
  end.

(** ** A read-only resource *)

Inductive action : Type :=
| Index
| ShowA (id : string)
| NewA
| CreateA
| EditA (id : string)
| UpdateA (id : string)
| DeleteA (id : string).

Definition readOnlyMsg : string := "This resource is read-only.".

(** Modelled from the spec: the controllers of the read-only backup
    resources (e.g. the phonology backups controller, outside this excerpt,
    whose functional test is in the excerpt): "Read-only sibling resources
    (e.g., backups) reject write verbs with HTTP 404 and a fixed error
    body", the body of the test being
    [{'error': 'This resource is read-only.'}].  A backup's id is its
    position in the backups table, from 1. *)
Definition backups_controller (a : action) : M response :=
  match a with
  | Index => l <- gets (fun s => backups (sess s));; ret (RBackups l)
  | ShowA id =>
      l <- gets (fun s => backups (sess s));;
      match py_int id with
      | Some n =>
          match (if n <? 1 then None else nth_error l (Z.to_nat (n - 1))) with
          | Some b => ret (RCorpusDict b)
          | None => set_status 404;;
                    ret (RError ("There is no corpus backup with id " ++ id))
          end
      | None => set_status 404;;
                ret (RError ("There is no corpus backup with id " ++ id))
      end
  | NewA | CreateA | EditA _ | UpdateA _ | DeleteA _ =>
      set_status 404;; ret (RError readOnlyMsg)
  end.

(** [Ok] exactly when every element maps to [Ok]. *)
Fixpoint mapRes {A B} (f : A -> res B) (l : list A) : res (list B) :=
  match l with
  | [] => Ok []
  | x :: l' =>
      match f x with
      | Ok y => match mapRes f l' with
                | Ok ys => Ok (y :: ys)
                | Raise e => Raise e
                end
      | Raise e => Raise e
      end
  end.

(** The forms [writeToFile] hands to the format writer, in order: the
    result of the saved search when the corpus has one, otherwise, for each
    id [getFormReferences] extracts from the content, the corpus form with
    that id. *)
Definition forms_written (h : helpers) (c : corpus) (s : state)
    (forms : list form) : Prop :=
  match c_formSearch c with
  | Some fsr =>
      runFormSearch h (forms_table (sess s)) (formSearch_search fsr) = Ok forms
  | None =>
      exists refs, getFormReferences h (c_content c) s = (Ok refs, s) /\
        Forall2 (fun id fm => form_id fm = id /\ In (Some fm) (c_forms c))
                refs forms
  end.

(** The concatenation of the texts written one after the other. *)
Definition concat_texts (l : list string) : string :=
  fold_right String.append EmptyString l.

(** ** Creating a corpus *)

Definition set_id (n : Z) (c : corpus) : corpus :=
  mkCorpus n (c_name c) (c_description c) (c_content c) (c_formSearch c)
    (c_tags c) (c_forms c) (c_files c) (c_modifier c) (c_datetimeModified c).

Section Create.

Variable h : helpers.

(** [json.loads(unicode(request.body, request.charset)).get('content', u'')]
    (raising [JSONDecodeError] on a body that is not JSON), taken as a
    parameter; [corpusSchema h body] stands for the [schema.to_python] of
    the values once their [forms] are set to the references found here. *)
Variable values_content : string -> res string.

(** [h.makeDirectorySafely] (in [lib/helpers.py], outside this excerpt),
    taken as a parameter. *)
Variable makeDirectorySafely : string -> M unit.

(** The id the database gives the row of a new corpus, taken as a
    parameter. *)
Variable new_corpus_id : db -> Z.

(** [Session.add(corpus)] of a new corpus object; the flush that follows
    gives it its id. *)
Definition session_add_new (c : corpus) : M corpus :=
  fun s => let c' := set_id (new_corpus_id (sess s)) c in
           (Ok c', set_sess (map_corpora (fun l => l ++ [c']) (sess s)) s).

(** [createNewCorpus(data)]: a corpus with no id yet (the [0] is replaced
    when the session gives it one), no files, and the logged-in user as
    modifier. *)
Definition createNewCorpus (data : corpus_data) : M corpus :=
  let name := normalize h (d_name data) in
  let description := normalize h (d_description data) in
  let content := normalize h (d_content data) in
  u <- get_session_user;;
  now <- h_now;;
  ret (mkCorpus 0 name description content (d_formSearch data) (d_tags data)
         (d_forms data) [] (user_id u) now).

(** [createCorpusDir(corpus)] *)
Definition createCorpusDir (c : corpus) : M string :=
  let corpusDirPath := getCorpusDirPath h c in
  makeDirectorySafely corpusDirPath;;
  ret corpusDirPath.

(** [CorporaController.create()] *)
Definition create (body : string) : M response :=
  try_except
    (content <- lift (values_content body);;
     _ <- getFormReferences h content;;
     data <- lift (corpusSchema h body);;
     corpus <- createNewCorpus data;;
     corpus <- session_add_new corpus;;
     session_commit;;
     createCorpusDir corpus;;
     ret (RCorpus corpus))
    json_invalid_handler.

End Create.

(** ** Concrete instances

    A pattern [[Ff]orm\[([0-9]+)\]] scanned left to right, a
    ["treebank"] format and small databases, on which the theorems are
    exercised. *)

Section Examples.
Local Open Scope string_scope.

Fixpoint take_digits (l : list ascii) : list ascii * list ascii :=
  match l with
  | c :: l' =>
      if (Ascii.leb "0" c && Ascii.leb c "9")%bool
      then let (d, r) := take_digits l' in (c :: d, r)
      else ([], l)
  | [] => ([], [])
  end.

Fixpoint scan_form_refs (fuel : nat) (l : list ascii) : list string :=
  match fuel with
  | O => []
  | S fuel' =>
      match l with
      | [] => []
      | c :: "o"%char :: "r"%char :: "m"%char :: "["%char :: rest =>
          if (Ascii.eqb c "f" || Ascii.eqb c "F")%bool then
            match take_digits rest with
            | (d :: ds, "]"%char :: rest') =>
                string_of_list_ascii (d :: ds) :: scan_form_refs fuel' rest'
            | _ => scan_form_refs fuel' (tl l)
            end
          else scan_form_refs fuel' (tl l)
      | _ :: l' => scan_form_refs fuel' l'
      end
  end.

Definition example_findall (s : string) : list string :=
  scan_form_refs (String.length s) (list_ascii_of_string s).

Definition example_format : corpusFormat :=
  mkCorpusFormat "tbk" "" (fun f => Ok (form_transcription f ++ " ")%string).

Definition example_helpers (schema : res corpus_data) : helpers :=
  mkHelpers "/old/files/corpora"
    (fun s => if String.eqb s "treebank" then Some example_format else None)
    example_findall
    (fun tbl _ => Ok tbl)
    (fun s => s)
    []
    (fun _ => schema)
    (fun _ => Ok "treebank").

Definition h0 : helpers := example_helpers (Raise Invalid).

Definition contributor : user := mkUser 1 "contributor".
Definition contributor2 : user := mkUser 2 "contributor".
Definition viewer : user := mkUser 3 "viewer".

Definition restricted_tag : tag := mkTag 1 "restricted".
Definition form7 : form := mkForm 7 "nitsspiyi" [].
Definition form8 : form := mkForm 8 "imitaa" [restricted_tag].

Definition corpus_dir : string := "/old/files/corpora/corpus_1".
Definition corpus_path : string := "/old/files/corpora/corpus_1/corpus_1.tbk".

Definition file1 : corpusFile :=
  mkCorpusFile 1 "corpus_1.tbk" "treebank" false 1 1 10 10.

(** A corpus of two forms, not yet written to disk. *)
Definition corpus_fresh : corpus :=
  mkCorpus 1 "Corpus" "" "form[8] form[7] form[8]" None []
    [Some form7; Some form8] [] 1 10.

(** The same corpus defined by a saved search. *)
Definition corpus_search : corpus :=
  mkCorpus 1 "Corpus" "" "form[7]" (Some (mkFormSearch 1 "{}")) []
    [Some form7] [] 1 10.

(** The corpus once written to a treebank file. *)
Definition corpus_written : corpus :=
  mkCorpus 1 "Corpus" "" "form[7]" None [] [Some form7] [file1] 1 10.

(** A corpus whose content references form 9, which it does not hold. *)
Definition corpus_missing : corpus :=
  mkCorpus 1 "Corpus" "" "form[7] form[9]" None [] [Some form7] [] 1 10.

Definition db_of (c : corpus) : db := mkDb [c] [form7; form8] [].

Definition state_of (c : corpus) (f : list (string * entry)) (u : user)
  : state :=
  mkState (db_of c) (db_of c) f 200 20 (Some u).

Definition state_fresh : state :=
  state_of corpus_fresh [(corpus_dir, Dir)] contributor.
Definition state_search : state :=
  state_of corpus_search [(corpus_dir, Dir)] contributor.
Definition state_written : state :=
  state_of corpus_written
    [(corpus_dir, Dir); (corpus_path, File "nitsspiyi ");
     ((corpus_path ++ ".gz")%string, GzFile "nitsspiyi ")] contributor.
Definition state_missing : state :=
  state_of corpus_missing [(corpus_dir, Dir)] contributor.

(** An update request whose data equal the corpus' but for a [null] in the
    tags list. *)
Definition corpus_plain : corpus :=
  mkCorpus 1 "Corpus" "" "" None [] [] [] 1 10.
Definition data_null_tag : corpus_data :=
  mkCorpusData "Corpus" "" "" None [None] [].
Definition h_null_tag : helpers := example_helpers (Ok data_null_tag).
Definition state_plain : state := state_of corpus_plain [(corpus_dir, Dir)] contributor2.

(** An update request that renames the corpus. *)
Definition data_renamed : corpus_data :=
  mkCorpusData "Corpus renamed" "" "" None [] [].
Definition h_renamed : helpers := example_helpers (Ok data_renamed).

End Examples.


(** ** More concrete instances *)

Section MoreExamples.
Local Open Scope string_scope.

(** Helpers whose body decoders both fail: the body is not JSON. *)
Definition h_bad_json : helpers :=
  mkHelpers (corpora_dir h0) (corpusFormats h0) (formReferencePattern_findall h0)
    (runFormSearch h0) (normalize h0) (getUnrestrictedUsers h0)
    (fun _ => Raise JSONDecodeError) (fun _ => Raise JSONDecodeError).

(** Helpers whose format decoder accepts a format that has no writer. *)
Definition h_latex : helpers :=
  mkHelpers (corpora_dir h0) (corpusFormats h0) (formReferencePattern_findall h0)
    (runFormSearch h0) (normalize h0) (getUnrestrictedUsers h0)
    (fun _ => Raise Invalid) (fun _ => Ok "latex").

(** An update request that keeps every column of [corpus_plain] but gives
    it a tag and a form. *)
Definition data_tags_only : corpus_data :=
  mkCorpusData "Corpus" "" "" None [Some restricted_tag] [Some form7].
Definition h_tags_only : helpers := example_helpers (Ok data_tags_only).

(** A second corpus, whose directory name extends that of corpus 1. *)
Definition corpus_12 : corpus := mkCorpus 12 "Corpus 12" "" "" None [] [] [] 1 10.
Definition state_two_dirs : state :=
  mkState (mkDb [corpus_plain; corpus_12] [] []) (mkDb [corpus_plain; corpus_12] [] [])
    [(corpus_dir, Dir); ("/old/files/corpora/corpus_12", Dir);
     ("/old/files/corpora/corpus_12/corpus_12.tbk", File "")]
    200 20 (Some contributor2).

(** A body without content, a directory maker that always succeeds, and
    ids that follow the largest one. *)
Definition no_content (body : string) : res string := Ok "".
Definition make_dir (p : string) : M unit :=
  fun s => (Ok tt, set_fs (fs_set p Dir (fs s)) s).
Definition max_id_plus_one (d : db) : Z :=
  1 + fold_left (fun m c => Z.max m (c_id c)) (corpora d) 0.

End MoreExamples.

(** * Properties *)

(** ** The monad *)

Lemma bind_inv {A B} (m : M A) (k : A -> M B) s r s' :
  bind m k s = (r, s') ->
  (exists a s1, m s = (Ok a, s1) /\ k a s1 = (r, s')) \/
  (exists e, m s = (Raise e, s') /\ r = Raise e).
Proof.
  unfold bind. destruct (m s) as [[a|e] s1] eqn:Hm; intro H.
  - left. exists a, s1. auto.
  - right. exists e. inversion H; subst. auto.
Qed.

Lemma bind_ok {A B} (m : M A) (k : A -> M B) s b s' :
  bind m k s = (Ok b, s') ->
  exists a s1, m s = (Ok a, s1) /\ k a s1 = (Ok b, s').
Proof.
  intro H. destruct (bind_inv m k s _ _ H) as [H1|[e [_ He]]]; [exact H1|discriminate].
Qed.

Lemma try_except_ok {A} (m : M A) handler s a s' :
  try_except m handler s = (Ok a, s') ->
  m s = (Ok a, s') \/ exists e s1, m s = (Raise e, s1) /\ handler e s1 = (Ok a, s').
Proof.
  unfold try_except. destruct (m s) as [[b|e] s1]; intro H.
  - left. exact H.
  - right. exists e, s1. auto.
Qed.

(** ** Names inside [writeToFile] *)

(** The update branch of [writeToFile] never runs [updateCorpusFile]: the
    call evaluates the name [filename], which is bound nowhere in its scope. *)
Lemma updateCorpusFile_call_raises n fn u now r s :
  updateCorpusFile_call n fn u now r s = (Raise (NameError "filename"), s).
Proof. reflexivity. Qed.

(** [destroyFile] leaves a regular file in place: [rmtree] fails on it and
    the failure is swallowed. *)
Lemma destroyFile_keeps_regular_file p s t :
  fs_lookup p (fs s) = Some (File t) -> destroyFile p s = (Ok tt, s).
Proof.
  intro H. unfold destroyFile, try_except, rmtree. rewrite H. reflexivity.
Qed.

(** [authorizedToAccessCorpusFile] grants access exactly to a file that is
    not restricted, to an administrator, or to an unrestricted user. *)
Lemma authorizedToAccessCorpusFile_iff h u cf :
  authorizedToAccessCorpusFile h u cf = true <->
  cf_restricted cf = false \/ role u = "administrator"%string
  \/ In (user_id u) (getUnrestrictedUsers h).
Proof.
  unfold authorizedToAccessCorpusFile.
  destruct (cf_restricted cf) eqn:Hr; simpl.
  - destruct (String.eqb (role u) "administrator") eqn:Ha; simpl.
    + apply String.eqb_eq in Ha. split; auto.
    + destruct (existsb (Z.eqb (user_id u)) (getUnrestrictedUsers h)) eqn:Hu;
        simpl.
      * apply existsb_exists in Hu. destruct Hu as [x [Hx Hxe]].
        apply Z.eqb_eq in Hxe. subst. split; auto.
      * split; [discriminate|].
        intros [H|[H|H]]; [discriminate| |].
        -- apply String.eqb_neq in Ha. contradiction.
        -- assert (existsb (Z.eqb (user_id u)) (getUnrestrictedUsers h) = true)
             as Hc by (apply existsb_exists; exists (user_id u);
                       split; [exact H | apply Z.eqb_refl]).
           congruence.
  - split; auto.
Qed.

(** ** C1 *)

(** C1: when the corpus file of the format already exists, [writeToFile]
    does not update its record: it appends a second record with the same
    file name (request [PUT /corpora/1/writetofile] on a corpus already
    written to a treebank file). *)
Theorem writetofile_existing_file_appends_second_record :
  fs_lookup corpus_path (fs state_written) = Some (File "nitsspiyi ") /\
  match request (writetofile h0 "1" "") state_written with
  | ((200, Some (RCorpus c)), s') =>
      find_corpus 1 (stored s') = Some c /\
      length (filter (fun cf => String.eqb (cf_filename cf) "corpus_1.tbk")
                     (c_files c)) = 2%nat
  | _ => False
  end.
Proof. vm_compute. auto. Qed.

(** ** C2 *)

(** C2: when a step of [writeToFile] fails (here the lookup of form 9,
    referenced by the content but not in the corpus), the response is a 400
    with the error message and nothing is committed, but the partially
    written file stays on disk: [destroyFile] calls [rmtree] on a file. *)
Theorem writetofile_failure_leaves_partial_file :
  match request (writetofile h0 "1" "") state_missing with
  | ((400, Some (RError msg)), s') =>
      msg = errorMsg corpus_missing "treebank" KeyError /\
      stored s' = stored state_missing /\
      fs_lookup corpus_path (fs s') = Some (File "nitsspiyi ")
  | _ => False
  end.
Proof. vm_compute. auto. Qed.

(** ** C8 *)

(** C8: the id ["abc"] matches no corpus.  [show] (like [delete], [edit]
    and [writetofile], which use the same lookup) answers 404 naming the
    id, but [update] calls [int(id)] first, whose [ValueError] escapes the
    action: a 500 response. *)
Theorem update_non_integer_id_is_500 h body s :
  fst (request (update h "abc" body) s) = (500, None) /\
  fst (request (show "abc") s) = (404, Some (RError (notFound "abc"))).
Proof. split; reflexivity. Qed.

(** ** C9 *)

(** C9: a [fileId] naming no file of the corpus makes [servefile] enter
    its [except] branch, whose ['%d' % (fileId, id)] on the URL strings
    raises [TypeError]: a 500 response, not the 400. *)
Theorem servefile_missing_file_is_500 h s c :
  find_corpus 1 (stored s) = Some c ->
  filter (fun cf => cf_id cf =? 99) (c_files c) = [] ->
  fst (request (servefile h "1" "99") s) = (500, None).
Proof.
  intros Hc Hf. unfold request, servefile, fresh, query_get, get_corpus, gets,
    bind. simpl. rewrite Hc. unfold try_except. simpl. rewrite Hf. reflexivity.
Qed.

(** ** C10 *)

(** C10: an update whose data equal the corpus but for a [null] in the
    tags list (equal as sets once falsy entries are dropped) is taken as a
    change: [updateCorpus] assigns [data['tags']] to the corpus before it
    compares, so the filtered list differs from the assigned one.  The
    response is 200, a backup is stored, and the modifier and modification
    time change. *)
Theorem update_null_tag_counts_as_change :
  match request (update h_null_tag "1" "") state_plain with
  | ((200, Some (RCorpus c)), s') =>
      backups (stored s') = [corpus_plain] /\
      c_modifier c = 2 /\ c_datetimeModified c = 20 /\
      c_modifier corpus_plain = 1 /\ c_datetimeModified corpus_plain = 10
  | _ => False
  end.
Proof. vm_compute. auto 6. Qed.

(** ** C6 *)

(** C6: the read-only backups resource answers every write action ([new],
    [create], [edit], [update], [delete]), whatever the id, with a 404 and
    the body [{'error': 'This resource is read-only.'}], and changes neither
    the database nor the file system. *)
Theorem backups_controller_rejects_writes id s :
  Forall (fun a =>
            fst (request (backups_controller a) s)
              = (404, Some (RError readOnlyMsg)) /\
            stored (snd (request (backups_controller a) s)) = stored s /\
            fs (snd (request (backups_controller a) s)) = fs s)
         [NewA; CreateA; EditA id; UpdateA id; DeleteA id].
Proof. repeat constructor. Qed.

(** ** Backups kept by a computation *)

Definition keeps_backups {A} (m : M A) : Prop :=
  forall s r s', m s = (r, s') -> backups (sess s') = backups (sess s).

Lemma keeps_ret {A} (a : A) : keeps_backups (ret a).
Proof. intros s r s' H. inversion H. reflexivity. Qed.

Lemma keeps_raise {A} e : keeps_backups (@raise A e).
Proof. intros s r s' H. inversion H. reflexivity. Qed.

Lemma keeps_bind {A B} (m : M A) (k : A -> M B) :
  keeps_backups m -> (forall a, keeps_backups (k a)) -> keeps_backups (bind m k).
Proof.
  intros Hm Hk s r s' H. destruct (bind_inv m k s r s' H)
    as [[a [s1 [H1 H2]]] | [e [H1 _]]].
  - rewrite (Hk a s1 r s' H2). exact (Hm s (Ok a) s1 H1).
  - exact (Hm s (Raise e) s' H1).
Qed.

Lemma keeps_modify_corpus n f : keeps_backups (modify_corpus n f).
Proof. intros s r s' H. inversion H. reflexivity. Qed.

Lemma keeps_get_corpus n : keeps_backups (get_corpus n).
Proof. intros s r s' H. inversion H. reflexivity. Qed.

Lemma keeps_get_session_user : keeps_backups get_session_user.
Proof.
  intros s r s' H. unfold get_session_user in H.
  destruct (session_user s); inversion H; reflexivity.
Qed.

Lemma keeps_h_now : keeps_backups h_now.
Proof. intros s r s' H. inversion H. reflexivity. Qed.

Lemma keeps_current n : keeps_backups (current n).
Proof.
  unfold current. apply keeps_bind; [apply keeps_get_corpus|].
  intros [c|]; [apply keeps_ret | apply keeps_raise].
Qed.

Lemma keeps_setAttr {A} eqb get set n (v : A) ch :
  keeps_backups (setAttr eqb get set n v ch).
Proof.
  unfold setAttr. apply keeps_bind; [apply keeps_current|]. intro c.
  destruct (eqb (get c) v); [apply keeps_ret|].
  apply keeps_bind; [apply keeps_modify_corpus|]. intro. apply keeps_ret.
Qed.

Create HintDb keeps.

#[local] Hint Resolve keeps_ret keeps_raise keeps_modify_corpus keeps_get_corpus
  keeps_get_session_user keeps_h_now keeps_current keeps_setAttr : keeps.

Ltac keeps_step :=
  match goal with
  | |- keeps_backups (bind _ _) => apply keeps_bind; [|intro]
  | |- keeps_backups (if ?b then _ else _) => destruct b
  | |- _ => solve [eauto with keeps]
  end.

(** [updateCorpus] only touches the corpus: the backups are those it
    started with. *)
Lemma updateCorpus_keeps_backups h n data :
  keeps_backups (updateCorpus h n data).
Proof. unfold updateCorpus. cbv zeta. repeat keeps_step. Qed.

(** ** C5 *)

(** C5: a successful [PUT /corpora/id] adds exactly one backup, the
    dictionary of the corpus as it was before the update, and a successful
    [DELETE /corpora/id] adds exactly one backup, the dictionary of the
    deleted corpus. *)
Theorem update_delete_add_one_backup h id body s :
  (forall c' s',
     request (update h id body) s = ((200, Some (RCorpus c')), s') ->
     exists n c0, py_int id = Some n /\ find_corpus n (stored s) = Some c0 /\
       backups (stored s') = backups (stored s) ++ [getDict c0]) /\
  (forall d s',
     request (delete h id) s = ((200, Some (RCorpusDict d)), s') ->
     exists n c0, py_int id = Some n /\ find_corpus n (stored s) = Some c0 /\
       d = getDict c0 /\
       backups (stored s') = backups (stored s) ++ [getDict c0]).
Proof.
  split.
  - intros c' s' H. unfold request in H.
    destruct (update h id body (fresh s)) as [r s1] eqn:E.
    destruct r as [resp|e]; [|discriminate].
    inversion H; subst; clear H.
    unfold update, py_int_m in E.
    destruct (py_int id) as [n|] eqn:Hn; [|discriminate].
    exists n. unfold bind at 1, ret at 1 in E.
    unfold bind at 1, get_corpus, gets in E. simpl in E.
    destruct (find_corpus n (stored s)) as [c0|] eqn:Hc0.
    2:{ discriminate. }
    exists c0. split; [reflexivity|]. split; [reflexivity|].
    apply try_except_ok in E. destruct E as [E | [e [s2 [_ E]]]].
    2:{ destruct e; simpl in E; try discriminate;
        unfold bind, set_status, modify, ret in E; simpl in E; discriminate. }
    apply bind_ok in E. destruct E as [data [s2 [Hl E]]].
    destruct (corpusSchema h body); simpl in Hl; inversion Hl; subst; clear Hl.
    apply bind_ok in E. destruct E as [r [s3 [Hu E]]].
    pose proof (updateCorpus_keeps_backups h (c_id c0) data _ _ _ Hu) as Hb.
    destruct r as [c1|].
    2:{ unfold bind, set_status, modify, ret in E. simpl in E. discriminate. }
    unfold bind, backupCorpus, modify, session_commit in E. simpl in E.
    destruct (flush_ok _); [|discriminate].
    unfold ret in E. inversion E; subst; clear E. simpl.
    rewrite Hb. reflexivity.
  - intros d s' H. unfold request in H.
    destruct (delete h id (fresh s)) as [r s1] eqn:E.
    destruct r as [resp|e]; [|discriminate].
    inversion H; subst; clear H.
    unfold delete, query_get in E.
    destruct (py_int id) as [n|] eqn:Hn.
    2:{ unfold bind, ret, set_status, modify in E. simpl in E. discriminate. }
    exists n. unfold bind at 1, get_corpus, gets in E. simpl in E.
    destruct (find_corpus n (stored s)) as [c0|] eqn:Hc0.
    2:{ unfold bind, ret, set_status, modify in E. simpl in E. discriminate. }
    exists c0. split; [reflexivity|]. split; [reflexivity|].
    unfold bind, backupCorpus, session_delete, modify, session_commit in E.
    simpl in E. destruct (flush_ok _); [|discriminate].
    unfold removeCorpusDirectory, try_except, rmtree, bind, ret in E.
    simpl in E.
    destruct (fs_lookup (getCorpusDirPath h c0) _) as [[t|t|]|]; simpl in E;
      inversion E; subst; simpl; auto.
Qed.

(** ** Strings and the file system *)

Lemma str_append_assoc (a b c : string) :
  ((a ++ b) ++ c)%string = (a ++ (b ++ c))%string.
Proof. induction a as [|x a IH]; simpl; [reflexivity | now rewrite IH]. Qed.

Lemma str_append_empty (a : string) : (a ++ EmptyString)%string = a.
Proof. induction a as [|x a IH]; simpl; [reflexivity | now rewrite IH]. Qed.

Lemma str_length_append (a b : string) :
  String.length (a ++ b) = (String.length a + String.length b)%nat.
Proof. induction a as [|x a IH]; simpl; auto. Qed.

Lemma gz_path_differs (p : string) : (p ++ ".gz")%string <> p.
Proof.
  intro H. apply (f_equal String.length) in H.
  rewrite str_length_append in H. simpl in H. lia.
Qed.

Lemma find_filter_other (q p : string) (f : list (string * entry)) :
  q <> p ->
  find (fun pe => String.eqb (fst pe) q)
       (filter (fun pe => negb (String.eqb (fst pe) p)) f)
  = find (fun pe => String.eqb (fst pe) q) f.
Proof.
  intro Hqp. induction f as [|[k e] f IH]; simpl; [reflexivity|].
  destruct (String.eqb k p) eqn:Hkp; simpl.
  - apply String.eqb_eq in Hkp. subst k.
    assert (String.eqb p q = false) as E
      by (apply String.eqb_neq; intro; apply Hqp; auto).
    rewrite E. exact IH.
  - destruct (String.eqb k q); [reflexivity | exact IH].
Qed.

Lemma fs_lookup_set_eq p e f : fs_lookup p (fs_set p e f) = Some e.
Proof. unfold fs_lookup, fs_set. simpl. now rewrite String.eqb_refl. Qed.

Lemma fs_lookup_set_neq p q e f :
  q <> p -> fs_lookup q (fs_set p e f) = fs_lookup q f.
Proof.
  intro H. unfold fs_lookup, fs_set. simpl.
  assert (String.eqb p q = false) as E
    by (apply String.eqb_neq; intro; apply H; auto).
  rewrite E. now rewrite find_filter_other.
Qed.

Lemma set_fs_set_fs f g s : set_fs f (set_fs g s) = set_fs f s.
Proof. reflexivity. Qed.

(** ** The steps of the file-writing block *)

Lemma open_w_ok p s u s' :
  open_w p s = (Ok u, s') -> s' = set_fs (fs_set p (File EmptyString) (fs s)) s.
Proof.
  unfold open_w.
  destruct (fs_lookup (fst (os_path_split p)) (fs s)) as [[t|t|]|];
    try discriminate.
  destruct (fs_lookup p (fs s)) as [[t|t|]|]; intro H; inversion H; auto.
Qed.

Lemma write_f_ok p text s u s' :
  write_f p text s = (Ok u, s') ->
  exists t, fs_lookup p (fs s) = Some (File t) /\
            s' = set_fs (fs_set p (File (t ++ text)) (fs s)) s.
Proof.
  unfold write_f. destruct (fs_lookup p (fs s)) as [[t|t|]|]; intro H;
    inversion H; subst; eauto.
Qed.

Lemma compressFile_ok p s u s' :
  compressFile p s = (Ok u, s') ->
  exists t, fs_lookup p (fs s) = Some (File t) /\
            s' = set_fs (fs_set (p ++ ".gz") (GzFile t) (fs s)) s.
Proof.
  unfold compressFile. destruct (fs_lookup p (fs s)) as [[t|t|]|]; intro H;
    inversion H; subst; eauto.
Qed.

Lemma lift_ok {A} (r : res A) s a s' : lift r s = (Ok a, s') -> r = Ok a /\ s' = s.
Proof. destruct r; simpl; intro H; inversion H; auto. Qed.

Lemma restricted_step_orb r f :
  restricted_step r f = (r || has_restricted_tag f)%bool.
Proof. unfold restricted_step. destruct r, (has_restricted_tag f); reflexivity. Qed.

Lemma write_forms_ok p wr forms : forall r s r' s' t,
  fs_lookup p (fs s) = Some (File t) ->
  write_forms p wr forms r s = (Ok r', s') ->
  exists outs f, mapRes wr forms = Ok outs /\
    r' = (r || existsb has_restricted_tag forms)%bool /\
    s' = set_fs f s /\
    fs_lookup p f = Some (File (t ++ concat_texts outs)).
Proof.
  induction forms as [|fm forms IH]; intros r s r' s' t Ht H; simpl in H.
  - injection H as <- <-. exists [], (fs s). simpl.
    rewrite Bool.orb_false_r, str_append_empty. destruct s; auto.
  - apply bind_ok in H. destruct H as [text [s1 [H1 H]]].
    apply lift_ok in H1. destruct H1 as [Hw ->].
    apply bind_ok in H. destruct H as [u [s2 [H2 H]]].
    apply write_f_ok in H2. destruct H2 as [t0 [Ht0 ->]].
    rewrite Ht in Ht0. inversion Ht0; subst t0.
    apply IH with (t := (t ++ text)%string) in H; [|apply fs_lookup_set_eq].
    destruct H as [outs [f [Houts [Hr [-> Hf]]]]].
    exists (text :: outs), f. simpl. rewrite Hw, Houts.
    rewrite Hr, restricted_step_orb, Bool.orb_assoc.
    rewrite str_append_assoc in Hf. auto.
Qed.

Lemma write_refs_ok p wr d refs : forall r s r' s' t,
  fs_lookup p (fs s) = Some (File t) ->
  write_refs p wr d refs r s = (Ok r', s') ->
  exists forms outs f,
    Forall2 (fun id fm => dict_get d id = Some fm) refs forms /\
    mapRes wr forms = Ok outs /\
    r' = (r || existsb has_restricted_tag forms)%bool /\
    s' = set_fs f s /\
    fs_lookup p f = Some (File (t ++ concat_texts outs)).
Proof.
  induction refs as [|id refs IH]; intros r s r' s' t Ht H; simpl in H.
  - injection H as <- <-. exists [], [], (fs s). simpl.
    rewrite Bool.orb_false_r, str_append_empty. destruct s; auto.
  - destruct (dict_get d id) as [fm|] eqn:Hd; [|discriminate].
    apply bind_ok in H. destruct H as [text [s1 [H1 H]]].
    apply lift_ok in H1. destruct H1 as [Hw ->].
    apply bind_ok in H. destruct H as [u [s2 [H2 H]]].
    apply write_f_ok in H2. destruct H2 as [t0 [Ht0 ->]].
    rewrite Ht in Ht0. inversion Ht0; subst t0.
    apply IH with (t := (t ++ text)%string) in H; [|apply fs_lookup_set_eq].
    destruct H as [forms [outs [f [Hf2 [Houts [Hr [-> Hf]]]]]]].
    exists (fm :: forms), (text :: outs), f. simpl. rewrite Hw, Houts.
    rewrite Hr, restricted_step_orb, Bool.orb_assoc.
    rewrite str_append_assoc in Hf. auto.
Qed.

Lemma build_forms_dict_ok l : forall s d s',
  build_forms_dict l s = (Ok d, s') ->
  s' = s /\ Forall (fun kf => form_id (snd kf) = fst kf /\ In (Some (snd kf)) l) d.
Proof.
  induction l as [|[f|] l IH]; intros s d s' H; simpl in H.
  - injection H as <- <-. auto.
  - apply bind_ok in H. destruct H as [d' [s1 [H1 H]]].
    injection H as <- <-. apply IH in H1. destruct H1 as [-> Hd'].
    split; [reflexivity|]. constructor.
    + simpl. auto.
    + eapply Forall_impl; [|exact Hd']. simpl. intros kf [Hk Hi]. auto.
  - discriminate.
Qed.

Lemma dict_get_in (l : list (option form)) d k fm :
  Forall (fun kf => form_id (snd kf) = fst kf /\ In (Some (snd kf)) l) d ->
  dict_get d k = Some fm -> form_id fm = k /\ In (Some fm) l.
Proof.
  intros Hd H. unfold dict_get in H.
  destruct (find (fun p => fst p =? k) (rev d)) as [[k' f']|] eqn:Hf;
    [|discriminate].
  simpl in H. injection H as <-.
  apply find_some in Hf. destruct Hf as [Hin Hk]. simpl in Hk.
  apply Z.eqb_eq in Hk. subst k'. apply in_rev in Hin.
  rewrite Forall_forall in Hd. apply Hd in Hin. simpl in Hin. exact Hin.
Qed.

Lemma mapM_py_int_ok l : forall s refs s',
  mapM py_int_m l s = (Ok refs, s') ->
  s' = s /\ Forall2 (fun str n => py_int str = Some n) l refs.
Proof.
  induction l as [|x l IH]; intros s refs s' H; simpl in H.
  - injection H as <- <-. auto.
  - apply bind_ok in H. destruct H as [n [s1 [H1 H]]].
    unfold py_int_m in H1. destruct (py_int x) as [m|] eqn:Hx; [|discriminate].
    injection H1 as <- <-.
    apply bind_ok in H. destruct H as [ns [s2 [H2 H]]].
    injection H as <- <-. apply IH in H2. destruct H2 as [-> Hns]. auto.
Qed.

(** [getFormReferences] returns [[]] for an empty content and otherwise
    the ids the pattern finds, in the order it finds them. *)
Lemma getFormReferences_ok h content s refs s' :
  getFormReferences h content s = (Ok refs, s') ->
  s' = s /\ (content = EmptyString -> refs = []) /\
  (content <> EmptyString ->
   Forall2 (fun str n => py_int str = Some n)
           (formReferencePattern_findall h content) refs).
Proof.
  unfold getFormReferences. destruct content as [|a rest] eqn:Ec; intro H.
  - injection H as <- <-. split; [reflexivity|]. split; [reflexivity|].
    intro Hne. contradiction.
  - rewrite <- Ec in H. apply mapM_py_int_ok in H. destruct H as [-> H].
    split; [reflexivity|]. split; [intro E; discriminate|]. intros _.
    rewrite <- Ec. exact H.
Qed.

(** A successful file-writing block wrote, to the corpus file path, the
    texts the format writer made of [forms_written], one after the other,
    and returned whether one of them carries the "restricted" tag; it
    changed nothing but the file system. *)
Lemma createCorpusFileOnDisk_ok h c p fmt s r s1 :
  createCorpusFileOnDisk h c p fmt s = (Ok r, s1) ->
  exists cfm forms outs f,
    corpusFormats h fmt = Some cfm /\
    forms_written h c s forms /\
    mapRes (writer cfm) forms = Ok outs /\
    r = existsb has_restricted_tag forms /\
    s1 = set_fs f s /\
    fs_lookup p f = Some (File (concat_texts outs)).
Proof.
  unfold createCorpusFileOnDisk. intro H.
  apply bind_ok in H. destruct H as [wr [s2 [H1 H]]].
  destruct (corpusFormats h fmt) as [cfm|] eqn:Hcf; [|discriminate].
  injection H1 as <- <-.
  apply bind_ok in H. destruct H as [restricted [s3 [H2 H]]].
  apply bind_ok in H. destruct H as [u [s4 [H3 H]]].
  injection H as <- <-.
  apply compressFile_ok in H3. destruct H3 as [t0 [Ht0 ->]].
  unfold forms_written.
  destruct (c_formSearch c) as [fsr|] eqn:Hfs.
  - apply bind_ok in H2. destruct H2 as [tbl [s5 [H5 H2]]].
    injection H5 as <- <-.
    apply bind_ok in H2. destruct H2 as [forms [s6 [H6 H2]]].
    apply lift_ok in H6. destruct H6 as [Hsearch ->].
    apply bind_ok in H2. destruct H2 as [u' [s7 [H7 H2]]].
    apply open_w_ok in H7. subst s7.
    apply write_forms_ok with (t := EmptyString) in H2;
      [|apply fs_lookup_set_eq].
    destruct H2 as [outs [f [Houts [Hr [-> Hf]]]]].
    exists cfm, forms, outs, (fs_set (p ++ ".gz") (GzFile t0) f).
    repeat split; auto.
    rewrite fs_lookup_set_neq; [exact Hf|].
    intro E. symmetry in E. exact (gz_path_differs p E).
  - apply bind_ok in H2. destruct H2 as [refs [s5 [H5 H2]]].
    apply getFormReferences_ok in H5 as Href.
    destruct Href as [-> _].
    apply bind_ok in H2. destruct H2 as [d [s6 [H6 H2]]].
    apply build_forms_dict_ok in H6. destruct H6 as [-> Hd].
    apply bind_ok in H2. destruct H2 as [u' [s7 [H7 H2]]].
    apply open_w_ok in H7. subst s7.
    apply write_refs_ok with (t := EmptyString) in H2;
      [|apply fs_lookup_set_eq].
    destruct H2 as [forms [outs [f [Hf2 [Houts [Hr [-> Hf]]]]]]].
    exists cfm, forms, outs, (fs_set (p ++ ".gz") (GzFile t0) f).
    repeat split; auto.
    + exists refs. split; [exact H5|].
      eapply Forall2_impl; [|exact Hf2].
      intros id fm Hg. exact (dict_get_in _ d id fm Hd Hg).
    + rewrite fs_lookup_set_neq; [exact Hf|].
      intro E. symmetry in E. exact (gz_path_differs p E).
Qed.

(** ** A successful [writeToFile] *)

Lemma find_corpus_modify n f d :
  (forall c, c_id (f c) = c_id c) ->
  find_corpus n (map_corpora (map (fun c => if c_id c =? n then f c else c)) d)
  = option_map f (find_corpus n d).
Proof.
  intro Hf. unfold find_corpus, map_corpora. simpl.
  induction (corpora d) as [|c l IH]; simpl; [reflexivity|].
  destruct (c_id c =? n) eqn:E; simpl.
  - rewrite Hf, E. reflexivity.
  - rewrite E. exact IH.
Qed.

Lemma generateNewCorpusFile_ok n fn fmt u dt r s x s' :
  generateNewCorpusFile n fn fmt u dt r s = (Ok x, s') ->
  s' = set_sess (map_corpora (map (fun c => if c_id c =? n then
         set_files_dtm (c_files c ++ [mkCorpusFile (next_file_id s) fn fmt r
                                        (user_id u) (user_id u) dt dt]) dt c
         else c)) (sess s)) s.
Proof. intro H. injection H as _ <-. reflexivity. Qed.

(** A call of [writeToFile] on the corpus object of the session that
    answers with the corpus has written the corpus file (the block
    [createCorpusFileOnDisk]), and appended to the corpus a new file record
    carrying the [restricted] value that block returned; the file system is
    left as that block left it. *)
Lemma writeToFile_ok h c fmt s c' s' :
  find_corpus (c_id c) (sess s) = Some c ->
  writeToFile h c fmt s = (Ok (RCorpus c'), s') ->
  exists p r f u,
    getCorpusFilePath h c fmt s = (Ok p, s) /\
    createCorpusFileOnDisk h c p fmt s = (Ok r, set_fs f s) /\
    fs s' = f /\ session_user s = Some u /\
    c' = set_files_dtm
           (c_files c ++ [mkCorpusFile (next_file_id s) (snd (os_path_split p))
                            fmt r (user_id u) (user_id u) (now_ s) (now_ s)])
           (now_ s) c.
Proof.
  intros Hc H. unfold writeToFile in H.
  apply bind_ok in H. destruct H as [p [s2 [Hp H]]].
  assert (s2 = s) as ->.
  { unfold getCorpusFilePath in Hp. destruct (corpusFormats h fmt);
      inversion Hp; auto. }
  apply bind_ok in H. destruct H as [upd [s3 [Hx H]]].
  injection Hx as _ <-.
  apply bind_ok in H. destruct H as [r1 [s4 [H1 H]]].
  apply try_except_ok in H1.
  destruct H1 as [H1 | [e [s5 [_ H1]]]].
  2:{ apply bind_ok in H1. destruct H1 as [u1 [s6 [_ H1]]].
      apply bind_ok in H1. destruct H1 as [u2 [s7 [_ H1]]].
      injection H1 as <- <-. discriminate. }
  apply bind_ok in H1. destruct H1 as [r [s5 [Hr H1]]].
  injection H1 as <- <-.
  pose proof (createCorpusFileOnDisk_ok _ _ _ _ _ _ _ Hr)
    as [cfm [forms [outs [f [_ [_ [_ [_ [-> _]]]]]]]]].
  apply bind_ok in H. destruct H as [r2 [s6 [H2 H]]].
  apply try_except_ok in H2.
  destruct H2 as [H2 | [e [s7 [_ H2]]]].
  2:{ apply bind_ok in H2. destruct H2 as [u1 [s8 [_ H2]]].
      apply bind_ok in H2. destruct H2 as [u2 [s9 [_ H2]]].
      injection H2 as <- <-. discriminate. }
  apply bind_ok in H2. destruct H2 as [now [s7 [Hn H2]]].
  injection Hn as <- <-.
  apply bind_ok in H2. destruct H2 as [u [s8 [Hu H2]]].
  unfold get_session_user in Hu. simpl in Hu.
  destruct (session_user s) as [u0|] eqn:Hsu; [|discriminate].
  injection Hu as <- <-.
  apply bind_ok in H2. destruct H2 as [x [s9 [Hg H2]]].
  injection H2 as <- <-.
  assert (generateNewCorpusFile (c_id c) (snd (os_path_split p)) fmt u0
            (now_ (set_fs f s)) r (set_fs f s) = (Ok x, s9)) as Hg'.
  { destruct upd; [|exact Hg].
    unfold try_except in Hg. rewrite updateCorpusFile_call_raises in Hg.
    exact Hg. }
  apply generateNewCorpusFile_ok in Hg'. subst s9.
  unfold bind, session_commit in H. simpl in H.
  destruct (flush_ok _); [|discriminate].
  unfold get_corpus, gets, ret in H. simpl in H.
  rewrite find_corpus_modify in H; [|reflexivity].
  simpl in Hc. rewrite Hc in H. simpl in H.
  injection H as <- <-.
  exists p, r, f, u0. repeat split; auto.
Qed.

(** What a successful [writeToFile] wrote: the forms of [forms_written]
    went through the format writer into the corpus file, one after the
    other, and the new file record's [restricted] flag says whether one of
    them carries the "restricted" tag. *)
Lemma writeToFile_writes h c fmt s c' s' :
  find_corpus (c_id c) (sess s) = Some c ->
  writeToFile h c fmt s = (Ok (RCorpus c'), s') ->
  exists p cfm forms outs u,
    getCorpusFilePath h c fmt s = (Ok p, s) /\
    corpusFormats h fmt = Some cfm /\
    forms_written h c s forms /\
    mapRes (writer cfm) forms = Ok outs /\
    fs_lookup p (fs s') = Some (File (concat_texts outs)) /\
    session_user s = Some u /\
    c' = set_files_dtm
           (c_files c ++ [mkCorpusFile (next_file_id s) (snd (os_path_split p))
                            fmt (existsb has_restricted_tag forms)
                            (user_id u) (user_id u) (now_ s) (now_ s)])
           (now_ s) c.
Proof.
  intros Hc H.
  destruct (writeToFile_ok _ _ _ _ _ _ Hc H)
    as [p [r [f [u [Hp [Hcr [Hfs [Hu ->]]]]]]]].
  destruct (createCorpusFileOnDisk_ok _ _ _ _ _ _ _ Hcr)
    as [cfm [forms [outs [f' [Hcf [Hw [Hm [-> [Hs Hl]]]]]]]]].
  apply (f_equal fs) in Hs. simpl in Hs. subst f'.
  exists p, cfm, forms, outs, u.
  repeat split; auto. rewrite Hfs. exact Hl.
Qed.

Lemma has_restricted_tag_spec f :
  has_restricted_tag f = true <->
  exists t, In t (form_tags f) /\ tag_name t = "restricted"%string.
Proof.
  unfold has_restricted_tag. rewrite existsb_exists.
  split; intros [t [Ht E]]; exists t; split; auto.
  - apply String.eqb_eq. exact E.
  - apply String.eqb_eq. exact E.
Qed.

(** C3: the file record added by a successful [writeToFile] is restricted
    exactly when one of the forms written to the corpus file carries a tag
    named "restricted". *)
Theorem writeToFile_restricted_iff_restricted_form h c fmt s c' s' :
  find_corpus (c_id c) (sess s) = Some c ->
  writeToFile h c fmt s = (Ok (RCorpus c'), s') ->
  exists p cfm forms outs cf,
    forms_written h c s forms /\
    corpusFormats h fmt = Some cfm /\
    mapRes (writer cfm) forms = Ok outs /\
    fs_lookup p (fs s') = Some (File (concat_texts outs)) /\
    c_files c' = c_files c ++ [cf] /\
    (cf_restricted cf = true <->
     exists f t, In f forms /\ In t (form_tags f) /\
                 tag_name t = "restricted"%string).
Proof.
  intros Hc H.
  destruct (writeToFile_writes _ _ _ _ _ _ Hc H)
    as [p [cfm [forms [outs [u [_ [Hcf [Hw [Hm [Hl [_ ->]]]]]]]]]]].
  eexists p, cfm, forms, outs, _.
  split; [exact Hw|]. split; [exact Hcf|]. split; [exact Hm|].
  split; [exact Hl|]. split; [reflexivity|]. simpl.
  rewrite existsb_exists. split.
  - intros [f [Hf Hr]]. apply has_restricted_tag_spec in Hr.
    destruct Hr as [t Ht]. exists f, t. tauto.
  - intros [f [t [Hf Ht]]]. exists f. split; [exact Hf|].
    apply has_restricted_tag_spec. exists t. exact Ht.
Qed.

(** C4: when the corpus has a saved search, the file-writing block does
    not depend on the rest of the corpus (its content and its forms), and
    a successful [writeToFile] writes to the corpus file the forms the
    saved search returns. *)
Theorem writeToFile_formSearch_supersedes h c fsr fmt :
  c_formSearch c = Some fsr ->
  (forall c2 p, c_formSearch c2 = Some fsr ->
     createCorpusFileOnDisk h c2 p fmt = createCorpusFileOnDisk h c p fmt) /\
  (forall s c' s',
     find_corpus (c_id c) (sess s) = Some c ->
     writeToFile h c fmt s = (Ok (RCorpus c'), s') ->
     exists p cfm forms outs,
       getCorpusFilePath h c fmt s = (Ok p, s) /\
       corpusFormats h fmt = Some cfm /\
       runFormSearch h (forms_table (sess s)) (formSearch_search fsr) = Ok forms /\
       mapRes (writer cfm) forms = Ok outs /\
       fs_lookup p (fs s') = Some (File (concat_texts outs))).
Proof.
  intro Hfs. split.
  - intros c2 p H2. unfold createCorpusFileOnDisk.
    rewrite H2, Hfs. reflexivity.
  - intros s c' s' Hc H.
    destruct (writeToFile_writes _ _ _ _ _ _ Hc H)
      as [p [cfm [forms [outs [u [Hp [Hcf [Hw [Hm [Hl _]]]]]]]]]].
    unfold forms_written in Hw. rewrite Hfs in Hw.
    exists p, cfm, forms, outs. auto.
Qed.

(** C7: without a saved search, a successful [writeToFile] writes to the
    corpus file, in order, one form for each reference [getFormReferences]
    found in the content (repeats included), that list being empty for an
    empty content and following the pattern's matches otherwise. *)
Theorem writeToFile_writes_referenced_forms_in_order h c fmt s c' s' :
  c_formSearch c = None ->
  find_corpus (c_id c) (sess s) = Some c ->
  writeToFile h c fmt s = (Ok (RCorpus c'), s') ->
  exists p cfm refs forms outs,
    getCorpusFilePath h c fmt s = (Ok p, s) /\
    corpusFormats h fmt = Some cfm /\
    getFormReferences h (c_content c) s = (Ok refs, s) /\
    (c_content c = EmptyString -> refs = []) /\
    (c_content c <> EmptyString ->
     Forall2 (fun str n => py_int str = Some n)
             (formReferencePattern_findall h (c_content c)) refs) /\
    Forall2 (fun id fm => form_id fm = id /\ In (Some fm) (c_forms c))
            refs forms /\
    mapRes (writer cfm) forms = Ok outs /\
    fs_lookup p (fs s') = Some (File (concat_texts outs)).
Proof.
  intros Hfs Hc H.
  destruct (writeToFile_writes _ _ _ _ _ _ Hc H)
    as [p [cfm [forms [outs [u [Hp [Hcf [Hw [Hm [Hl _]]]]]]]]]].
  unfold forms_written in Hw. rewrite Hfs in Hw.
  destruct Hw as [refs [Hr Hf]].
  destruct (getFormReferences_ok _ _ _ _ _ Hr) as [_ [He Hne]].
  exists p, cfm, refs, forms, outs. repeat split; auto.
Qed.

(** ** Instances of the theorems on the example databases *)

Lemma writeToFile_restricted_iff_restricted_form_witness :
  exists c' s',
    find_corpus (c_id corpus_fresh) (sess state_fresh) = Some corpus_fresh /\
    writeToFile h0 corpus_fresh "treebank"%string state_fresh
      = (Ok (RCorpus c'), s') /\
    exists p cfm forms outs cf,
      forms_written h0 corpus_fresh state_fresh forms /\
      corpusFormats h0 "treebank"%string = Some cfm /\
      mapRes (writer cfm) forms = Ok outs /\
      fs_lookup p (fs s') = Some (File (concat_texts outs)) /\
      c_files c' = c_files corpus_fresh ++ [cf] /\
      (cf_restricted cf = true <->
       exists f t, In f forms /\ In t (form_tags f) /\
                   tag_name t = "restricted"%string).
Proof.
  do 2 eexists. split; [reflexivity|]. split; [reflexivity|].
  eapply (writeToFile_restricted_iff_restricted_form h0 corpus_fresh
           "treebank"%string state_fresh); reflexivity.
Defined.

Lemma writeToFile_formSearch_supersedes_witness :
  c_formSearch corpus_search = Some (mkFormSearch 1 "{}"%string) /\
  (exists c' s',
     find_corpus (c_id corpus_search) (sess state_search) = Some corpus_search /\
     writeToFile h0 corpus_search "treebank"%string state_search
       = (Ok (RCorpus c'), s')) /\
  (forall c2 p, c_formSearch c2 = Some (mkFormSearch 1 "{}"%string) ->
     createCorpusFileOnDisk h0 c2 p "treebank"%string
     = createCorpusFileOnDisk h0 corpus_search p "treebank"%string) /\
  (forall s c' s',
     find_corpus (c_id corpus_search) (sess s) = Some corpus_search ->
     writeToFile h0 corpus_search "treebank"%string s = (Ok (RCorpus c'), s') ->
     exists p cfm forms outs,
       getCorpusFilePath h0 corpus_search "treebank"%string s = (Ok p, s) /\
       corpusFormats h0 "treebank"%string = Some cfm /\
       runFormSearch h0 (forms_table (sess s)) "{}"%string = Ok forms /\
       mapRes (writer cfm) forms = Ok outs /\
       fs_lookup p (fs s') = Some (File (concat_texts outs))).
Proof.
  split; [reflexivity|]. split; [do 2 eexists; split; reflexivity|].
  eapply (writeToFile_formSearch_supersedes h0 corpus_search
           (mkFormSearch 1 "{}"%string) "treebank"%string).
  reflexivity.
Defined.

Lemma writeToFile_writes_referenced_forms_in_order_witness :
  exists c' s',
    c_formSearch corpus_fresh = None /\
    find_corpus (c_id corpus_fresh) (sess state_fresh) = Some corpus_fresh /\
    writeToFile h0 corpus_fresh "treebank"%string state_fresh
      = (Ok (RCorpus c'), s') /\
    exists p cfm refs forms outs,
      getCorpusFilePath h0 corpus_fresh "treebank"%string state_fresh
        = (Ok p, state_fresh) /\
      corpusFormats h0 "treebank"%string = Some cfm /\
      getFormReferences h0 (c_content corpus_fresh) state_fresh
        = (Ok refs, state_fresh) /\
      (c_content corpus_fresh = EmptyString -> refs = []) /\
      (c_content corpus_fresh <> EmptyString ->
       Forall2 (fun str n => py_int str = Some n)
               (formReferencePattern_findall h0 (c_content corpus_fresh)) refs) /\
      Forall2 (fun id fm => form_id fm = id /\ In (Some fm) (c_forms corpus_fresh))
              refs forms /\
      mapRes (writer cfm) forms = Ok outs /\
      fs_lookup p (fs s') = Some (File (concat_texts outs)).
Proof.
  do 2 eexists. split; [reflexivity|]. split; [reflexivity|].
  split; [reflexivity|].
  eapply (writeToFile_writes_referenced_forms_in_order h0 corpus_fresh
           "treebank"%string state_fresh); reflexivity.
Defined.

Lemma update_delete_add_one_backup_witness :
  (exists c' s',
     request (update h_renamed "1"%string EmptyString) state_plain
       = ((200, Some (RCorpus c')), s') /\
     exists n c0, py_int "1"%string = Some n /\
       find_corpus n (stored state_plain) = Some c0 /\
       backups (stored s') = backups (stored state_plain) ++ [getDict c0]) /\
  (exists d s',
     request (delete h_renamed "1"%string) state_plain
       = ((200, Some (RCorpusDict d)), s') /\
     exists n c0, py_int "1"%string = Some n /\
       find_corpus n (stored state_plain) = Some c0 /\
       d = getDict c0 /\
       backups (stored s') = backups (stored state_plain) ++ [getDict c0]).
Proof.
  destruct (update_delete_add_one_backup h_renamed "1"%string EmptyString
              state_plain) as [Hu Hd].
  split.
  - do 2 eexists. split; [reflexivity|]. eapply Hu. reflexivity.
  - do 2 eexists. split; [reflexivity|]. eapply Hd. reflexivity.
Defined.

Lemma servefile_missing_file_is_500_witness :
  find_corpus 1 (stored state_written) = Some corpus_written /\
  filter (fun cf => cf_id cf =? 99) (c_files corpus_written) = [] /\
  fst (request (servefile h0 "1"%string "99"%string) state_written) = (500, None).
Proof.
  split; [reflexivity|]. split; [reflexivity|].
  eapply (servefile_missing_file_is_500 h0 state_written corpus_written);
    reflexivity.
Defined.

(** * Further properties of the controller *)

(** ** Decimal ids: ['%d' % n] read back by [int] *)

Lemma digits_of_nat_S fuel n acc :
  digits_of_nat (S fuel) n acc =
  if Nat.ltb n 10
  then String (ascii_of_nat (48 + Nat.modulo n 10)) acc
  else digits_of_nat fuel (Nat.div n 10)
         (String (ascii_of_nat (48 + Nat.modulo n 10)) acc).
Proof. reflexivity. Qed.

Lemma parse_digits_cons c s a :
  parse_digits (String c s) a =
  if (48 <=? Z.of_nat (nat_of_ascii c)) && (Z.of_nat (nat_of_ascii c) <=? 57)
  then parse_digits s (a * 10 + (Z.of_nat (nat_of_ascii c) - 48))
  else None.
Proof. reflexivity. Qed.

Lemma parse_digit k s a : (k < 10)%nat ->
  parse_digits (String (ascii_of_nat (48 + k)) s) a
  = parse_digits s (a * 10 + Z.of_nat k).
Proof.
  intro Hk. rewrite parse_digits_cons.
  rewrite nat_ascii_embedding by lia.
  replace ((48 <=? Z.of_nat (48 + k)) && (Z.of_nat (48 + k) <=? 57))
    with true by (symmetry; apply andb_true_iff; split; apply Z.leb_le; lia).
  f_equal. lia.
Qed.

Lemma parse_digits_of_nat fuel : forall n acc,
  (n < fuel)%nat ->
  parse_digits (digits_of_nat fuel n acc) 0 = parse_digits acc (Z.of_nat n).
Proof.
  induction fuel as [|fuel IH]; intros n acc Hn; [lia|].
  rewrite digits_of_nat_S.
  pose proof (Nat.mod_upper_bound n 10 ltac:(lia)) as Hm.
  pose proof (Nat.div_mod_eq n 10) as Hd.
  destruct (Nat.ltb n 10) eqn:Hlt.
  - apply Nat.ltb_lt in Hlt. rewrite parse_digit by lia.
    rewrite (Nat.mod_small n 10 Hlt). f_equal.
  - apply Nat.ltb_ge in Hlt.
    rewrite IH by (apply Nat.Div0.div_lt_upper_bound; lia).
    rewrite parse_digit by lia. f_equal. lia.
Qed.

Lemma digits_of_nat_nonempty fuel n acc :
  digits_of_nat (S fuel) n acc <> EmptyString.
Proof.
  revert n acc. induction fuel as [|fuel IH]; intros n acc;
    rewrite digits_of_nat_S; destruct (Nat.ltb n 10); try discriminate.
  apply IH.
Qed.

Lemma parse_digits_no_sign c s v :
  parse_digits (String c s) 0 = Some v -> py_int (String c s) = Some v.
Proof.
  intro H.
  destruct c as [[] [] [] [] [] [] [] []]; destruct s;
    solve [exact H | discriminate H].
Qed.

(** [int('%d' % z) == z] *)
Lemma py_int_str_of_Z z : py_int (str_of_Z z) = Some z.
Proof.
  unfold str_of_Z.
  pose proof (parse_digits_of_nat (S (Z.to_nat (Z.abs z))) (Z.to_nat (Z.abs z))
                EmptyString ltac:(lia)) as H.
  change (parse_digits EmptyString ?x) with (Some x) in H.
  pose proof (digits_of_nat_nonempty (Z.to_nat (Z.abs z)) (Z.to_nat (Z.abs z))
                EmptyString) as Hne.
  destruct (digits_of_nat (S (Z.to_nat (Z.abs z))) (Z.to_nat (Z.abs z))
              EmptyString) as [|c r] eqn:E; [contradiction|].
  destruct (z <? 0) eqn:Hz.
  - apply Z.ltb_lt in Hz. change (option_map Z.opp (parse_digits (String c r) 0) = Some z).
    rewrite H. cbn [option_map]. f_equal. lia.
  - apply Z.ltb_ge in Hz. apply parse_digits_no_sign. rewrite H. f_equal. lia.
Qed.

Lemma str_of_Z_inj a b : str_of_Z a = str_of_Z b -> a = b.
Proof.
  intro H. pose proof (py_int_str_of_Z a) as Ha. rewrite H, py_int_str_of_Z in Ha.
  congruence.
Qed.


(** ** Lookups by id *)

(** The response and the state a request leaves when the action ran on
    the fresh state without touching it. *)
Lemma request_ret s resp :
  request (ret resp) s = ((200, Some resp), set_sess (stored s) (fresh s)).
Proof. reflexivity. Qed.

Lemma find_corpus_fresh n s :
  find_corpus n (sess (fresh s)) = find_corpus n (stored s).
Proof. reflexivity. Qed.

(** X1: [show] and [edit] find a stored corpus by the decimal rendering of
    its id, answer 200 with it, and change neither the database nor the
    file system. *)
Theorem show_edit_find_stored_corpus s n c :
  find_corpus n (stored s) = Some c ->
  request (show (str_of_Z n)) s
    = ((200, Some (RCorpus c)), set_sess (stored s) (fresh s)) /\
  request (edit (str_of_Z n)) s
    = ((200, Some (REdit c)), set_sess (stored s) (fresh s)).
Proof.
  intro Hc. unfold show, edit, query_get. rewrite py_int_str_of_Z.
  unfold request, bind, get_corpus, gets. simpl. rewrite Hc.
  split; reflexivity.
Qed.

(** X2: an integer id that matches no stored corpus makes [show], [edit],
    [delete], [update] and [writetofile] answer 404 with the message naming
    the id, and [servefile] answer 404 with that message as JSON text;
    none of them changes the database or the file system. *)
Theorem missing_corpus_is_404 h id n body fileId s :
  py_int id = Some n -> find_corpus n (stored s) = None ->
  Forall (fun m => fst (request m s) = (404, Some (RError (notFound id))) /\
                   stored (snd (request m s)) = stored s /\
                   fs (snd (request m s)) = fs s)
         [show id; edit id; delete h id; update h id body; writetofile h id body] /\
  fst (request (servefile h id fileId) s) = (404, Some (RJsonError (notFound id))) /\
  stored (snd (request (servefile h id fileId) s)) = stored s /\
  fs (snd (request (servefile h id fileId) s)) = fs s.
Proof.
  intros Hn Hf.
  unfold show, edit, delete, update, writetofile, servefile, query_get, py_int_m.
  rewrite Hn. repeat constructor.
  all: unfold request, bind, get_corpus, gets, ret; simpl;
       rewrite ?find_corpus_fresh, Hf; reflexivity.
Qed.

(** X3: when the request body of [PUT /corpora/id] on an existing corpus
    cannot be decoded or validated, [update] answers 400 with
    [h.JSONDecodeErrorResponse] or with the validation errors (any other
    exception escapes: 500), and changes neither the database nor the file
    system. *)
Theorem update_bad_body h id n c body e s :
  py_int id = Some n -> find_corpus n (stored s) = Some c ->
  corpusSchema h body = Raise e ->
  fst (request (update h id body) s)
    = match e with
      | JSONDecodeError => (400, Some RJSONDecodeError)
      | Invalid => (400, Some (RErrors Invalid))
      | _ => (500, None)
      end /\
  stored (snd (request (update h id body) s)) = stored s /\
  fs (snd (request (update h id body) s)) = fs s.
Proof.
  intros Hn Hc Hs. unfold update, py_int_m. rewrite Hn.
  unfold request, bind, get_corpus, gets, ret, try_except. simpl. rewrite Hc, Hs.
  destruct e; repeat split.
Qed.

(** X4: the same for [PUT /corpora/id/writetofile]: a body that cannot be
    decoded or validated gives 400, and nothing is written or stored. *)
Theorem writetofile_bad_body h id n c body e s :
  py_int id = Some n -> find_corpus n (stored s) = Some c ->
  corpusFormatSchema h body = Raise e ->
  fst (request (writetofile h id body) s)
    = match e with
      | JSONDecodeError => (400, Some RJSONDecodeError)
      | Invalid => (400, Some (RErrors Invalid))
      | _ => (500, None)
      end /\
  stored (snd (request (writetofile h id body) s)) = stored s /\
  fs (snd (request (writetofile h id body) s)) = fs s.
Proof.
  intros Hn Hc Hs. unfold writetofile, query_get. rewrite Hn.
  unfold request, bind, get_corpus, gets, ret, try_except. simpl. rewrite Hc, Hs.
  destruct e; repeat split.
Qed.


(** ** What [update] changes *)

(** Two states that agree on everything the request keeps but the session. *)
Definition same_env (s s' : state) : Prop :=
  stored s' = stored s /\ fs s' = fs s /\ status s' = status s /\
  now_ s' = now_ s /\ session_user s' = session_user s.

Definition keeps_env {A} (m : M A) : Prop :=
  forall s r s', m s = (r, s') -> same_env s s'.

Lemma same_env_refl s : same_env s s.
Proof. repeat split. Qed.

Lemma same_env_trans s1 s2 s3 : same_env s1 s2 -> same_env s2 s3 -> same_env s1 s3.
Proof.
  intros (A1 & B1 & C1 & D1 & E1) (A2 & B2 & C2 & D2 & E2).
  repeat split; congruence.
Qed.

Lemma env_ret {A} (a : A) : keeps_env (ret a).
Proof. intros s r s' H. inversion H; subst; repeat split. Qed.

Lemma env_raise {A} e : keeps_env (@raise A e).
Proof. intros s r s' H. inversion H; subst; repeat split. Qed.

Lemma env_lift {A} (x : res A) : keeps_env (lift x).
Proof. destruct x; [apply env_ret | apply env_raise]. Qed.

Lemma env_bind {A B} (m : M A) (k : A -> M B) :
  keeps_env m -> (forall a, keeps_env (k a)) -> keeps_env (bind m k).
Proof.
  intros Hm Hk s r s' H. destruct (bind_inv m k s r s' H)
    as [[a [s1 [H1 H2]]] | [e [H1 _]]].
  - exact (same_env_trans _ _ _ (Hm _ _ _ H1) (Hk a _ _ _ H2)).
  - exact (Hm _ _ _ H1).
Qed.

Lemma env_modify_corpus n f : keeps_env (modify_corpus n f).
Proof. intros s r s' H. inversion H; subst; repeat split. Qed.

Lemma env_get_corpus n : keeps_env (get_corpus n).
Proof. intros s r s' H. inversion H; subst; repeat split. Qed.

Lemma env_get_session_user : keeps_env get_session_user.
Proof.
  intros s r s' H. unfold get_session_user in H.
  destruct (session_user s); inversion H; subst; repeat split.
Qed.

Lemma env_h_now : keeps_env h_now.
Proof. intros s r s' H. inversion H; subst; repeat split. Qed.

Lemma env_py_int_m x : keeps_env (py_int_m x).
Proof. unfold py_int_m. destruct (py_int x); [apply env_ret | apply env_raise]. Qed.

Lemma env_current n : keeps_env (current n).
Proof.
  unfold current. apply env_bind; [apply env_get_corpus|].
  intros [c|]; [apply env_ret | apply env_raise].
Qed.

Lemma env_setAttr {A} eqb get set n (v : A) ch :
  keeps_env (setAttr eqb get set n v ch).
Proof.
  unfold setAttr. apply env_bind; [apply env_current|]. intro c.
  destruct (eqb (get c) v); [apply env_ret|].
  apply env_bind; [apply env_modify_corpus|]. intro. apply env_ret.
Qed.

Create HintDb env.

#[local] Hint Resolve env_ret env_raise env_lift env_modify_corpus env_get_corpus
  env_get_session_user env_h_now env_py_int_m env_current env_setAttr : env.

Ltac env_step :=
  match goal with
  | |- keeps_env (bind _ _) => apply env_bind; [|intro]
  | |- keeps_env (if ?b then _ else _) => destruct b
  | |- _ => solve [eauto with env]
  end.

(** [updateCorpus] changes nothing but the session. *)
Lemma updateCorpus_keeps_env h n data : keeps_env (updateCorpus h n data).
Proof. unfold updateCorpus. cbv zeta. repeat env_step. Qed.

(** A computation that leaves the file system as it is, and the database
    too unless it answers with a corpus (leaving the status as it was). *)
Definition stores_with_corpus (m : M response) : Prop :=
  forall s r s', m s = (r, s') ->
    fs s' = fs s /\
    (stored s' = stored s \/ exists c, r = Ok (RCorpus c) /\ status s' = status s).

Definition keeps_sf {A} (m : M A) : Prop :=
  forall s r s', m s = (r, s') -> stored s' = stored s /\ fs s' = fs s.

Lemma swc_bind_env {A} (m : M A) (k : A -> M response) :
  keeps_env m -> (forall a, stores_with_corpus (k a)) ->
  stores_with_corpus (bind m k).
Proof.
  intros Hm Hk s r s' H. destruct (bind_inv m k s r s' H)
    as [[a [s1 [H1 H2]]] | [e [H1 _]]].
  - destruct (Hm _ _ _ H1) as (A1 & B1 & C1 & _).
    destruct (Hk a _ _ _ H2) as [F [G | [c [-> G]]]].
    + split; [congruence | left; congruence].
    + split; [congruence | right; exists c; split; [reflexivity | congruence]].
  - destruct (Hm _ _ _ H1) as (A1 & B1 & _). split; [exact B1 | left; exact A1].
Qed.

Lemma swc_of_keeps_sf (m : M response) : keeps_sf m -> stores_with_corpus m.
Proof. intros Hm s r s' H. destruct (Hm _ _ _ H). auto. Qed.

Lemma swc_try (m : M response) handler :
  stores_with_corpus m -> (forall e, keeps_sf (handler e)) ->
  stores_with_corpus (try_except m handler).
Proof.
  intros Hm Hh s r s' H. unfold try_except in H.
  destruct (m s) as [[a|e] s1] eqn:E.
  - inversion H; subst. exact (Hm _ _ _ E).
  - destruct (Hm _ _ _ E) as [F [G | [c [Hc _]]]]; [|discriminate].
    destruct (Hh e _ _ _ H). split; [congruence | left; congruence].
Qed.

Lemma sf_status_ret {A} n (a : A) : keeps_sf (set_status n;; ret a).
Proof. intros s r s' H. inversion H. auto. Qed.

Lemma sf_json_invalid_handler e : keeps_sf (json_invalid_handler e).
Proof.
  intros s r s' H. destruct e; simpl in H; inversion H; auto.
Qed.

Lemma swc_commit d c : stores_with_corpus (backupCorpus d;; session_commit;; ret (RCorpus c)).
Proof.
  intros s r s' H. unfold bind, backupCorpus, modify, session_commit in H.
  simpl in H. destruct (flush_ok _); inversion H; subst; simpl.
  - split; [reflexivity | right; exists c; auto].
  - split; [reflexivity | left; reflexivity].
Qed.

(** X5: [update] never touches the file system, and changes the database
    only when it answers 200 with the updated corpus: a 404, a 400 (data
    not new, undecodable or invalid) and a 500 leave it as it was. *)
Theorem update_changes_db_only_on_success h id body s :
  fs (snd (request (update h id body) s)) = fs s /\
  (stored (snd (request (update h id body) s)) = stored s \/
   exists c, fst (request (update h id body) s) = (200, Some (RCorpus c))).
Proof.
  assert (Hu : stores_with_corpus (update h id body)).
  { unfold update. apply swc_bind_env; [apply env_py_int_m|]. intro n.
    apply swc_bind_env; [apply env_get_corpus|]. intros [c|].
    - apply swc_try; [|apply sf_json_invalid_handler].
      apply swc_bind_env; [apply env_lift|]. intro data. cbv zeta.
      apply swc_bind_env; [apply updateCorpus_keeps_env|]. intros [c'|].
      + apply swc_commit.
      + apply swc_of_keeps_sf, sf_status_ret.
    - apply swc_of_keeps_sf, sf_status_ret. }
  unfold request. destruct (update h id body (fresh s)) as [r s1] eqn:E.
  destruct (Hu _ _ _ E) as [F [G | [c [-> G]]]].
  - destruct r; simpl; split; auto.
  - simpl. split; [exact F|]. right. exists c. rewrite G. reflexivity.
Qed.


(** ** What a successful [update] stores *)

Lemma find_corpus_id n d c : find_corpus n d = Some c -> c_id c = n.
Proof.
  unfold find_corpus. intro H. apply find_some in H. destruct H as [_ H].
  apply Z.eqb_eq. exact H.
Qed.

Lemma modify_corpus_spec n f s r s' :
  modify_corpus n f s = (r, s') ->
  (forall x, c_id (f x) = c_id x) ->
  r = Ok tt /\ same_env s s' /\
  find_corpus n (sess s') = option_map f (find_corpus n (sess s)).
Proof.
  intros H Hf. injection H as <- <-. split; [reflexivity|].
  split; [repeat split|]. simpl. apply find_corpus_modify. exact Hf.
Qed.

Lemma current_spec n s c :
  find_corpus n (sess s) = Some c -> current n s = (Ok c, s).
Proof.
  intro H. unfold current, bind, get_corpus, gets. simpl. rewrite H. reflexivity.
Qed.

Lemma setAttr_spec {A} eqb get set n (v : A) ch s b s' c :
  (forall x, c_id (set v x) = c_id x) ->
  find_corpus n (sess s) = Some c ->
  setAttr eqb get set n v ch s = (Ok b, s') ->
  same_env s s' /\
  ((eqb (get c) v = true /\ b = ch /\ find_corpus n (sess s') = Some c) \/
   (eqb (get c) v = false /\ b = true /\
    find_corpus n (sess s') = Some (set v c))).
Proof.
  intros Hid Hc H. unfold setAttr, bind at 1 in H.
  rewrite (current_spec _ _ _ Hc) in H.
  destruct (eqb (get c) v) eqn:E.
  - injection H as <- <-. split; [repeat split|]. left. auto.
  - unfold bind in H. destruct (modify_corpus n (set v) s) as [r1 s1] eqn:Em.
    destruct (modify_corpus_spec _ _ _ _ _ Em Hid) as [-> [Henv Hf]].
    injection H as <- <-. split; [exact Henv|]. right.
    rewrite Hf, Hc. auto.
Qed.

(** [setAttr] on an attribute compared by equality: the attribute holds
    the value afterwards. *)
Lemma setAttr_eq_spec {A} eqb get set n (v : A) ch s b s' c :
  (forall x y, eqb x y = true -> x = y) ->
  (forall x, set (get x) x = x) ->
  (forall x, c_id (set v x) = c_id x) ->
  find_corpus n (sess s) = Some c ->
  setAttr eqb get set n v ch s = (Ok b, s') ->
  same_env s s' /\ find_corpus n (sess s') = Some (set v c) /\
  b = ch || negb (eqb (get c) v).
Proof.
  intros Heq Hset Hid Hc H.
  destruct (setAttr_spec _ _ _ _ _ _ _ _ _ _ Hid Hc H)
    as [Henv [[E [-> Hf]] | [E [-> Hf]]]]; rewrite E; cbn [negb].
  - apply Heq in E. rewrite <- E, Hset. rewrite Bool.orb_false_r. auto.
  - rewrite Bool.orb_true_r. auto.
Qed.

Lemma truthy_all_some {A} (l : list (option A)) :
  (forall x, In x l -> x <> None) -> truthy l = l.
Proof.
  unfold truthy. induction l as [|x l IH]; intro H; [reflexivity|]. simpl.
  destruct x as [a|].
  - f_equal. apply IH. intros y Hy. apply H. right. exact Hy.
  - exfalso. apply (H None); [left|]; reflexivity.
Qed.

(** When [set(truthy) == set(l)], no entry of [l] is [None]. *)
Lemma set_neq_truthy {A} (k : A -> Z) (l : list (option A)) :
  set_neq (map (option_map k) (truthy l)) (map (option_map k) l) = false ->
  truthy l = l.
Proof.
  unfold set_neq. intro H. apply negb_false_iff, andb_true_iff in H.
  destruct H as [_ H]. apply truthy_all_some. intros x Hx Hn. subst x.
  rewrite forallb_forall in H.
  specialize (H None (in_map (option_map k) l None Hx)).
  apply existsb_exists in H. destruct H as [y [Hy E]].
  destruct y; [discriminate|].
  apply in_map_iff in Hy. destruct Hy as [z [Hz Hin]].
  destruct z; [discriminate|].
  unfold truthy in Hin. apply filter_In in Hin. destruct Hin as [_ Hin].
  discriminate.
Qed.

Ltac step_ok H x s1 H1 :=
  apply bind_ok in H; destruct H as [x [s1 [H1 H]]].

Lemma updateCorpus_spec h n data s c c' s' :
  find_corpus n (sess s) = Some c ->
  updateCorpus h n data s = (Ok (Some c'), s') ->
  exists u, session_user s = Some u /\ same_env s s' /\
    find_corpus n (sess s') = Some c' /\
    c_id c' = c_id c /\
    c_name c' = normalize h (d_name data) /\
    c_description c' = normalize h (d_description data) /\
    c_content c' = normalize h (d_content data) /\
    (c_formSearch c' = d_formSearch data \/
     c_formSearch c' = c_formSearch c /\
     formSearch_eqb (c_formSearch c) (d_formSearch data) = true) /\
    c_tags c' = truthy (d_tags data) /\ c_forms c' = truthy (d_forms data) /\
    c_files c' = c_files c /\ c_modifier c' = user_id u /\
    c_datetimeModified c' = now_ s.
Proof.
  intros Hc H. unfold updateCorpus in H. cbv zeta in H.
  assert (Hs : forall x y, String.eqb x y = true -> x = y)
    by (intros x y; apply String.eqb_eq).
  step_ok H b1 s1 H1.
  destruct (setAttr_eq_spec String.eqb c_name set_name n _ _ _ _ _ _ Hs
              (fun x => match x with mkCorpus _ _ _ _ _ _ _ _ _ _ => eq_refl end)
              (fun _ => eq_refl) Hc H1)
    as [E1 [F1 _]]. clear H1.
  step_ok H b2 s2 H2.
  destruct (setAttr_eq_spec String.eqb c_description set_description n _ _ _ _ _ _ Hs
              (fun x => match x with mkCorpus _ _ _ _ _ _ _ _ _ _ => eq_refl end)
              (fun _ => eq_refl) F1 H2)
    as [E2 [F2 _]]. clear H2.
  step_ok H b3 s3 H3.
  destruct (setAttr_eq_spec String.eqb c_content set_content n _ _ _ _ _ _ Hs
              (fun x => match x with mkCorpus _ _ _ _ _ _ _ _ _ _ => eq_refl end)
              (fun _ => eq_refl) F2 H3)
    as [E3 [F3 _]]. clear H3.
  step_ok H b4 s4 H4.
  destruct (setAttr_spec formSearch_eqb c_formSearch set_formSearch n _ _ _ _ _ _
              (fun _ => eq_refl) F3 H4)
    as [E4 HF4]. clear H4.
  set (c3 := set_content _ (set_description _ (set_name _ c))) in *.
  assert (exists c4, find_corpus n (sess s4) = Some c4 /\
            c4 = set_formSearch (c_formSearch c4) c3 /\
            (c_formSearch c4 = d_formSearch data \/
             c_formSearch c4 = c_formSearch c /\
             formSearch_eqb (c_formSearch c) (d_formSearch data) = true))
    as [c4 [F4 [Hc4 Hfs]]].
  { destruct HF4 as [[Eq [_ F4]] | [_ [_ F4]]].
    - exists c3. split; [exact F4|]. split; [destruct c3; reflexivity|].
      right. split; [reflexivity | exact Eq].
    - eexists. split; [exact F4|]. split; [reflexivity|]. left. reflexivity. }
  clear HF4.
  step_ok H u5 s5 H5.
  destruct (modify_corpus_spec _ _ _ _ _ H5 (fun _ => eq_refl)) as [_ [E5 F5]].
  rewrite F4 in F5. simpl in F5. clear H5.
  step_ok H u6 s6 H6.
  destruct (modify_corpus_spec _ _ _ _ _ H6 (fun _ => eq_refl)) as [_ [E6 F6]].
  rewrite F5 in F6. simpl in F6. clear H6.
  step_ok H c7 s7 H7.
  rewrite (current_spec _ _ _ F6) in H7. injection H7 as <- <-.
  step_ok H b8 s8 H8.
  assert (F8 : find_corpus n (sess s8)
               = Some (set_forms (truthy (d_forms data))
                         (set_tags (d_tags data) c4)) /\ same_env s6 s8 /\
               b8 = b4 || set_neq (form_keys (truthy (d_forms data)))
                                 (form_keys (d_forms data))).
  { simpl in H8.
    destruct (set_neq _ _) eqn:Eq.
    - step_ok H8 u' s'' H'.
      destruct (modify_corpus_spec _ _ _ _ _ H' (fun _ => eq_refl))
        as [_ [E F]].
      injection H8 as <- <-. rewrite F6 in F. simpl in F.
      rewrite Bool.orb_true_r. auto.
    - injection H8 as <- <-. rewrite Bool.orb_false_r.
      unfold form_keys in Eq. rewrite (set_neq_truthy _ _ Eq).
      split; [exact F6|]. split; [repeat split | reflexivity]. }
  destruct F8 as [F8 [E8 Hb8]]. clear H8.
  step_ok H c9 s9 H9.
  rewrite (current_spec _ _ _ F8) in H9. injection H9 as <- <-.
  step_ok H b10 s10 H10.
  assert (F10 : find_corpus n (sess s10)
               = Some (set_tags (truthy (d_tags data))
                        (set_forms (truthy (d_forms data)) c4)) /\
               same_env s8 s10).
  { simpl in H10.
    destruct (set_neq _ _) eqn:Eq.
    - step_ok H10 u' s'' H'.
      destruct (modify_corpus_spec _ _ _ _ _ H' (fun _ => eq_refl))
        as [_ [E F]].
      injection H10 as <- <-. rewrite F8 in F. simpl in F. auto.
    - injection H10 as <- <-.
      unfold tag_keys in Eq. rewrite (set_neq_truthy _ _ Eq).
      split; [exact F8 | repeat split]. }
  destruct F10 as [F10 E10]. clear H10.
  destruct b10; [|discriminate].
  step_ok H u s11 H11.
  unfold get_session_user in H11.
  destruct (session_user s10) as [u'|] eqn:Hu; [|discriminate].
  injection H11 as <- <-.
  step_ok H now s12 H12. injection H12 as <- <-.
  step_ok H u12 s13 H13.
  destruct (modify_corpus_spec _ _ _ _ _ H13 (fun _ => eq_refl))
    as [_ [E13 F13]]. rewrite F10 in F13. simpl in F13. clear H13.
  step_ok H c14 s14 H14.
  rewrite (current_spec _ _ _ F13) in H14. injection H14 as <- <-.
  injection H as <- <-.
  assert (E10' : same_env s s10).
  { apply (same_env_trans _ _ _ E1), (same_env_trans _ _ _ E2),
      (same_env_trans _ _ _ E3), (same_env_trans _ _ _ E4),
      (same_env_trans _ _ _ E5), (same_env_trans _ _ _ E6),
      (same_env_trans _ _ _ E8), E10. }
  pose proof (same_env_trans _ _ _ E10' E13) as Henv.
  destruct E10' as (_ & _ & _ & Hn10 & Hu10).
  exists u'. split; [congruence|]. split; [exact Henv|]. split; [exact F13|].
  rewrite Hn10. subst c3. rewrite Hc4. clear Hc4.
  destruct c; simpl in *.
  repeat split; try reflexivity. exact Hfs.
Qed.


Lemma json_invalid_handler_resp e s a s' :
  json_invalid_handler e s = (Ok a, s') ->
  a = RJSONDecodeError \/ a = RErrors Invalid.
Proof.
  destruct e; simpl; unfold raise, bind, set_status, modify, ret; simpl;
    intro H; try discriminate; injection H as <- _; auto.
Qed.

(** X6: when [update] answers with a corpus, the id was an integer of a
    stored corpus, the body validated, the answer is 200, the file system is
    unchanged, the old corpus was backed up, and the stored corpus has the
    normalized name, description and content of the data, its form search
    (or the old one when they compare equal), the non-null tags and forms
    of the data, its old files, and the logged-in user and the request's
    time as modifier and modification time. *)
Theorem update_stores_submitted_data h id body s code c' s' :
  request (update h id body) s = ((code, Some (RCorpus c')), s') ->
  exists n c data u,
    py_int id = Some n /\ find_corpus n (stored s) = Some c /\
    corpusSchema h body = Ok data /\ session_user s = Some u /\
    code = 200 /\ fs s' = fs s /\
    find_corpus n (stored s') = Some c' /\
    backups (stored s') = backups (stored s) ++ [c] /\
    c_id c' = n /\
    c_name c' = normalize h (d_name data) /\
    c_description c' = normalize h (d_description data) /\
    c_content c' = normalize h (d_content data) /\
    (c_formSearch c' = d_formSearch data \/
     c_formSearch c' = c_formSearch c /\
     formSearch_eqb (c_formSearch c) (d_formSearch data) = true) /\
    c_tags c' = truthy (d_tags data) /\ c_forms c' = truthy (d_forms data) /\
    c_files c' = c_files c /\ c_modifier c' = user_id u /\
    c_datetimeModified c' = now_ s.
Proof.
  intro H. unfold request in H.
  destruct (update h id body (fresh s)) as [r s1] eqn:Hu.
  destruct r as [resp|e]; [|discriminate].
  injection H as Hst Hresp Hs'. subst resp s'.
  unfold update in Hu.
  step_ok Hu n s2 H2. unfold py_int_m in H2.
  destruct (py_int id) as [n'|] eqn:Hid; [|discriminate].
  injection H2 as <- <-. rename n' into n.
  step_ok Hu oc s3 H3. unfold get_corpus, gets in H3. injection H3 as <- <-.
  destruct (find_corpus n (stored s)) as [c|] eqn:Hf;
    [|unfold bind, set_status, modify, ret in Hu; simpl in Hu; discriminate].
  apply try_except_ok in Hu.
  destruct Hu as [Hu | [e [s4 [_ Hh]]]];
    [|destruct (json_invalid_handler_resp _ _ _ _ Hh) as [X|X]; discriminate X].
  step_ok Hu data s4 H4. unfold lift in H4.
  destruct (corpusSchema h body) as [d|e] eqn:Hd; [|discriminate].
  injection H4 as <- <-. rename d into data.
  step_ok Hu r s5 H5.
  assert (Hf' : find_corpus n (sess (fresh s)) = Some c)
    by (rewrite find_corpus_fresh; exact Hf).
  rewrite (find_corpus_id _ _ _ Hf) in H5.
  pose proof (updateCorpus_keeps_backups h n data _ _ _ H5) as Hb.
  destruct r as [c''|];
    [|unfold bind, set_status, modify, ret in Hu; simpl in Hu; discriminate].
  destruct (updateCorpus_spec _ _ _ _ _ _ _ Hf' H5)
    as (u & Hu0 & (Es & Efs & Est & En & Eu) & F5 & Rest).
  step_ok Hu t6 s6 H6. unfold backupCorpus, modify in H6. injection H6 as <- <-.
  step_ok Hu t7 s7 H7. unfold session_commit in H7.
  destruct (flush_ok _); [|discriminate]. injection H7 as <- <-.
  unfold ret in Hu. injection Hu as <- <-.
  exists n, c, data, u.
  subst code. simpl in *.
  split; [reflexivity|]. split; [exact Hf|]. split; [reflexivity|].
  split; [exact Hu0|]. split; [exact Est|]. split; [exact Efs|].
  split; [exact F5|]. split; [rewrite Hb; reflexivity|].
  rewrite (find_corpus_id _ _ _ Hf) in Rest. exact Rest.
Qed.


Lemma fs_lookup_filter (P : string -> bool) p f :
  fs_lookup p (filter (fun pe => negb (P (fst pe))) f)
  = if P p then None else fs_lookup p f.
Proof.
  unfold fs_lookup. induction f as [|[q e] f IH]; simpl.
  - destruct (P p); reflexivity.
  - destruct (P q) eqn:Eq; simpl.
    + rewrite IH. destruct (String.eqb q p) eqn:E.
      * apply String.eqb_eq in E. subst q. rewrite Eq. reflexivity.
      * reflexivity.
    + destruct (String.eqb q p) eqn:E; [|exact IH].
      apply String.eqb_eq in E. subst q. rewrite Eq. reflexivity.
Qed.

Lemma find_filter_id n l :
  find (fun c => c_id c =? n) (filter (fun c => negb (c_id c =? n)) l) = None.
Proof.
  induction l as [|c l IH]; simpl; [reflexivity|].
  destruct (c_id c =? n) eqn:E; simpl; [exact IH|]. rewrite E. exact IH.
Qed.

Lemma forallb_filter {A} (p q : A -> bool) l :
  forallb p l = true -> forallb p (filter q l) = true.
Proof.
  induction l as [|x l IH]; simpl; [reflexivity|].
  intro H. apply andb_true_iff in H. destruct H as [H1 H2].
  destruct (q x); simpl; [rewrite H1|]; auto.
Qed.

Lemma delete_spec h id n c s :
  py_int id = Some n ->
  find_corpus n (stored s) = Some c ->
  flush_ok (stored s) = true ->
  let dir := getCorpusDirPath h c in
  fst (request (delete h id) s) = (200, Some (RCorpusDict c)) /\
  corpora (stored (snd (request (delete h id) s)))
    = filter (fun c => negb (c_id c =? n)) (corpora (stored s)) /\
  find_corpus n (stored (snd (request (delete h id) s))) = None /\
  (forall p, fs_lookup p (fs (snd (request (delete h id) s))) =
     match fs_lookup dir (fs s) with
     | Some Dir =>
         if String.eqb p dir || String.prefix (dir ++ "/") p then None
         else fs_lookup p (fs s)
     | _ => fs_lookup p (fs s)
     end).
Proof.
  intros Hn Hf Hok dir.
  pose proof (find_corpus_id _ _ _ Hf) as Hid.
  assert (Hok' : flush_ok (map_corpora (filter (fun c => negb (c_id c =? n)))
                   (mkDb (corpora (stored s)) (forms_table (stored s))
                         (backups (stored s) ++ [c]))) = true).
  { unfold flush_ok, map_corpora in *. simpl. apply forallb_filter. exact Hok. }
  unfold request, delete, query_get. rewrite Hn.
  unfold bind, get_corpus, gets. rewrite find_corpus_fresh, Hf.
  unfold backupCorpus, session_delete, modify, session_commit. simpl.
  unfold getDict. rewrite Hid.
  replace (flush_ok _) with true by (symmetry; exact Hok').
  unfold removeCorpusDirectory, try_except, bind, rmtree, ret. simpl.
  fold dir.
  destruct (fs_lookup dir (fs s)) as [[x|x|]|] eqn:Hd; simpl;
    (split; [reflexivity|]); (split; [reflexivity|]);
    (split; [unfold find_corpus; simpl; apply find_filter_id|]);
    intro p; try reflexivity.
  rewrite (fs_lookup_filter (fun q => String.eqb q dir
                              || String.prefix (dir ++ "/") q)).
  reflexivity.
Qed.

(** X8: deleting an existing corpus (with a database that accepts the
    flush) answers 200 with the corpus, removes exactly the rows with its
    id, and removes its directory with everything under it when that
    directory exists, leaving every other path as it was. *)
Theorem delete_removes_corpus_and_directory h id n c s :
  py_int id = Some n ->
  find_corpus n (stored s) = Some c ->
  flush_ok (stored s) = true ->
  let dir := getCorpusDirPath h c in
  fst (request (delete h id) s) = (200, Some (RCorpusDict c)) /\
  corpora (stored (snd (request (delete h id) s)))
    = filter (fun c => negb (c_id c =? n)) (corpora (stored s)) /\
  find_corpus n (stored (snd (request (delete h id) s))) = None /\
  (forall p, fs_lookup p (fs (snd (request (delete h id) s))) =
     match fs_lookup dir (fs s) with
     | Some Dir =>
         if String.eqb p dir || String.prefix (dir ++ "/") p then None
         else fs_lookup p (fs s)
     | _ => fs_lookup p (fs s)
     end).
Proof. exact (delete_spec h id n c s). Qed.



(** X11: [servefile] never changes the database or the file system, and
    never answers 400: its [except Exception] branch fails on its own
    message formatting, so it answers 404, 500, 403 or 200 with a file. *)
Theorem servefile_never_400 h id fileId s r s' :
  request (servefile h id fileId) s = (r, s') ->
  stored s' = stored s /\ fs s' = fs s /\
  (r = (404, Some (RJsonError (notFound id))) \/ r = (500, None) \/
   r = (403, Some RUnauthorized) \/
   exists p, r = (200, Some (RFile p))).
Proof.
  unfold request, servefile, query_get.
  destruct (py_int id) as [n|].
  2:{ simpl. intro H. injection H as <- <-. auto. }
  unfold bind at 1, get_corpus, gets. rewrite find_corpus_fresh.
  destruct (find_corpus n (stored s)) as [c|].
  2:{ simpl. intro H. injection H as <- <-. auto. }
  unfold try_except, bind, py_int_m.
  destruct (py_int fileId) as [m|]; simpl;
    [|intro H; injection H as <- <-; auto].
  destruct (filter (fun cf => cf_id cf =? m) (c_files c)) as [|cf rest];
    simpl; [intro H; injection H as <- <-; auto|].
  unfold get_session_user. simpl.
  destruct (session_user s) as [u|]; simpl;
    [|intro H; injection H as <- <-; auto].
  destruct (authorizedToAccessCorpusFile h u cf); simpl;
    intro H; injection H as <- <-; eauto 10.
Qed.


(** ** Paths *)

Lemma str_app_assoc (a b c : string) : ((a ++ b) ++ c = a ++ (b ++ c))%string.
Proof. induction a as [|x a IH]; simpl; [reflexivity|]. rewrite IH. reflexivity. Qed.

Lemma str_app_nil_r (a : string) : (a ++ "")%string = a.
Proof. induction a as [|x a IH]; simpl; [reflexivity|]. rewrite IH. reflexivity. Qed.

Lemma str_app_cancel_l (a b c : string) : (a ++ b = a ++ c)%string -> b = c.
Proof. induction a as [|x a IH]; simpl; [auto|]. intro H. injection H. exact IH. Qed.

Lemma las_app (a b : string) :
  list_ascii_of_string (a ++ b) = list_ascii_of_string a ++ list_ascii_of_string b.
Proof. induction a as [|x a IH]; simpl; [reflexivity|]. rewrite IH. reflexivity. Qed.

Lemma prefix_app (p q : string) :
  String.prefix p q = true -> exists r, q = (p ++ r)%string.
Proof.
  revert q. induction p as [|x p IH]; intros q H.
  - exists q. reflexivity.
  - destruct q as [|y q]; simpl in H; [discriminate|].
    destruct (ascii_dec x y) as [<-|]; [|discriminate].
    destruct (IH q H) as [r ->]. exists r. reflexivity.
Qed.

Lemma digits_of_nat_chars fuel : forall n acc ch,
  In ch (list_ascii_of_string (digits_of_nat fuel n acc)) ->
  In ch (list_ascii_of_string acc) \/
  exists k, (k < 10)%nat /\ ch = ascii_of_nat (48 + k).
Proof.
  induction fuel as [|fuel IH]; intros n acc ch H; [left; exact H|].
  rewrite digits_of_nat_S in H.
  pose proof (Nat.mod_upper_bound n 10 ltac:(lia)) as Hm.
  destruct (Nat.ltb n 10).
  - destruct H as [H|H]; [right; eauto|left; exact H].
  - destruct (IH _ _ _ H) as [[H'|H']|H']; [right; eauto|left; exact H'|right; exact H'].
Qed.

Lemma str_of_Z_no_slash z : ~ In "/"%char (list_ascii_of_string (str_of_Z z)).
Proof.
  assert (D : forall fuel n,
             ~ In "/"%char (list_ascii_of_string (digits_of_nat fuel n EmptyString))).
  { intros fuel n H. destruct (digits_of_nat_chars _ _ _ _ H) as [[]|[k [Hk E]]].
    apply (f_equal nat_of_ascii) in E. rewrite nat_ascii_embedding in E by lia.
    change (nat_of_ascii "/"%char) with 47%nat in E. lia. }
  unfold str_of_Z. destruct (z <? 0); [|apply D].
  intros [H|H]; [discriminate H|]. exact (D _ _ H).
Qed.

Lemma split_at_slash_app l1 l2 :
  ~ In "/"%char l1 -> split_at_slash (l1 ++ "/"%char :: l2) = (l1, l2).
Proof.
  induction l1 as [|x l1 IH]; intro H; simpl; [reflexivity|].
  destruct (Ascii.eqb x "/") eqn:E.
  - apply Ascii.eqb_eq in E. subst x. exfalso. apply H. left. reflexivity.
  - rewrite IH; [reflexivity|]. intro H'. apply H. right. exact H'.
Qed.

(** [os.path.split(os.path.join(a, b))] gives back [(a, b)] when [b] holds
    no separator. *)
Lemma os_path_split_join a b :
  ~ In "/"%char (list_ascii_of_string b) ->
  os_path_split (os_path_join a b) = (a, b).
Proof.
  intro Hb. unfold os_path_split, os_path_join.
  rewrite las_app, las_app. simpl.
  rewrite rev_app_distr. simpl. rewrite <- app_assoc. simpl.
  rewrite split_at_slash_app.
  - rewrite !rev_involutive, !string_of_list_ascii_of_string. reflexivity.
  - intro H. apply Hb. apply in_rev. exact H.
Qed.

Lemma no_slash_app a b :
  ~ In "/"%char (list_ascii_of_string a) -> ~ In "/"%char (list_ascii_of_string b) ->
  ~ In "/"%char (list_ascii_of_string (a ++ b)).
Proof.
  rewrite las_app. intros Ha Hb H. apply in_app_or in H. tauto.
Qed.

(** A separator-free [s1] followed by ["/"] is a prefix of [s2 ++ x] only
    when [s1 = s2], if [s2] is separator-free and [x] is empty or starts a
    new path component. *)
Lemma slash_prefix_eq s1 s2 x r :
  ~ In "/"%char (list_ascii_of_string s1) ->
  ~ In "/"%char (list_ascii_of_string s2) ->
  (x = EmptyString \/ exists y, x = ("/" ++ y)%string) ->
  (s2 ++ x = s1 ++ "/" ++ r)%string -> s1 = s2.
Proof.
  revert s2. induction s1 as [|a s1 IH]; intros s2 H1 H2 Hx E.
  - destruct s2 as [|b s2]; [reflexivity|].
    simpl in E. injection E as -> _. exfalso. apply H2. left. reflexivity.
  - destruct s2 as [|b s2].
    + simpl in E. destruct Hx as [->|[y ->]]; [discriminate|].
      simpl in E. injection E as <- _. exfalso. apply H1. left. reflexivity.
    + simpl in E. injection E as <- E. f_equal.
      apply IH; auto.
      * intro H. apply H1. right. exact H.
      * intro H. apply H2. right. exact H.
Qed.

Lemma getCorpusDirPath_inj h c1 c2 :
  getCorpusDirPath h c1 = getCorpusDirPath h c2 -> c_id c1 = c_id c2.
Proof.
  unfold getCorpusDirPath, os_path_join. intro H.
  apply str_app_cancel_l in H. simpl in H.
  injection H as H. apply str_of_Z_inj. exact H.
Qed.


(** X12: for a known format whose suffix and extension contain no slash,
    [getCorpusFilePath] returns a path whose directory is
    [getCorpusDirPath] of the corpus and whose file name is
    [corpus_<id><suffix>.<extension>]. *)
Theorem getCorpusFilePath_split h c format_ f s :
  corpusFormats h format_ = Some f ->
  ~ In "/"%char (list_ascii_of_string (suffix f)) ->
  ~ In "/"%char (list_ascii_of_string (extension f)) ->
  exists p, getCorpusFilePath h c format_ s = (Ok p, s) /\
    os_path_split p = (getCorpusDirPath h c,
                       ("corpus_" ++ str_of_Z (c_id c) ++ suffix f ++ "."
                        ++ extension f)%string).
Proof.
  intros Hf Hs He. unfold getCorpusFilePath. rewrite Hf.
  eexists. split; [reflexivity|]. apply os_path_split_join.
  apply (no_slash_app "corpus_"); [intros [H|[H|[H|[H|[H|[H|[H|[]]]]]]]]; discriminate H|].
  apply no_slash_app; [apply str_of_Z_no_slash|].
  apply no_slash_app; [exact Hs|].
  apply (no_slash_app "."); [intros [H|[]]; discriminate H|exact He].
Qed.

(** X13: two corpora have the same directory if and only if they have the
    same id. *)
Theorem getCorpusDirPath_eq_iff h c1 c2 :
  getCorpusDirPath h c1 = getCorpusDirPath h c2 <-> c_id c1 = c_id c2.
Proof.
  split; [apply getCorpusDirPath_inj|].
  intro E. unfold getCorpusDirPath. rewrite E. reflexivity.
Qed.

Lemma corpus_dir_app h c x :
  (getCorpusDirPath h c ++ x
   = corpora_dir h ++ "/" ++ "corpus_" ++ str_of_Z (c_id c) ++ x)%string.
Proof. unfold getCorpusDirPath, os_path_join. rewrite !str_app_assoc. reflexivity. Qed.

Lemma other_corpus_path_kept h c c2 x :
  c_id c2 <> c_id c ->
  (x = EmptyString \/ exists y, x = ("/" ++ y)%string) ->
  (String.eqb (getCorpusDirPath h c2 ++ x) (getCorpusDirPath h c)
   || String.prefix (getCorpusDirPath h c ++ "/") (getCorpusDirPath h c2 ++ x))
  = false.
Proof.
  intros Hne Hx.
  pose proof (str_of_Z_no_slash (c_id c)) as N1.
  pose proof (str_of_Z_no_slash (c_id c2)) as N2.
  apply orb_false_iff. split.
  - apply String.eqb_neq. intro E.
    rewrite corpus_dir_app in E.
    rewrite <- (str_app_nil_r (getCorpusDirPath h c)) in E.
    rewrite corpus_dir_app in E.
    do 3 apply str_app_cancel_l in E.
    destruct Hx as [->|[y ->]].
    + rewrite !str_app_nil_r in E. apply Hne. apply str_of_Z_inj. exact E.
    + apply N1. rewrite str_app_nil_r in E. rewrite <- E, las_app.
      apply in_or_app. right. left. reflexivity.
  - destruct (String.prefix _ _) eqn:P; [|reflexivity]. exfalso.
    destruct (prefix_app _ _ P) as [r E].
    rewrite corpus_dir_app in E. rewrite str_app_assoc, corpus_dir_app in E.
    do 3 apply str_app_cancel_l in E.
    rewrite <- str_app_assoc in E.
    apply Hne. apply str_of_Z_inj. symmetry.
    rewrite str_app_assoc in E.
    exact (slash_prefix_eq _ _ _ _ N1 N2 Hx E).
Qed.

(** X9: deleting a corpus leaves the directory of every corpus with
    another id, and every path under it, as it was. *)
Theorem delete_keeps_other_corpus_directories h id n c s c2 x :
  py_int id = Some n ->
  find_corpus n (stored s) = Some c ->
  flush_ok (stored s) = true ->
  c_id c2 <> n ->
  (x = EmptyString \/ exists y, x = ("/" ++ y)%string) ->
  fs_lookup (getCorpusDirPath h c2 ++ x) (fs (snd (request (delete h id) s)))
  = fs_lookup (getCorpusDirPath h c2 ++ x) (fs s).
Proof.
  intros Hn Hf Hok Hne Hx.
  destruct (delete_spec h id n c s Hn Hf Hok) as (_ & _ & _ & Hfs).
  rewrite Hfs. rewrite <- (find_corpus_id _ _ _ Hf) in Hne.
  destruct (fs_lookup (getCorpusDirPath h c) (fs s)) as [[| |]|]; try reflexivity.
  rewrite (other_corpus_path_kept h c c2 x Hne Hx). reflexivity.
Qed.


(** ** Creating a corpus *)

Lemma flush_ok_app d l :
  flush_ok (map_corpora (fun l' => l' ++ l) d)
  = flush_ok d && flush_ok (mkDb l [] []).
Proof. unfold flush_ok, map_corpora. simpl. apply forallb_app. Qed.

Lemma forallb_some_Forall {A} (l : list (option A)) :
  forallb (fun x : option A => if x then true else false) l = true
  <-> Forall (fun x => x <> None) l.
Proof.
  rewrite forallb_forall, Forall_forall.
  split; intros H x Hx; specialize (H x Hx); destruct x; try discriminate; auto.
Qed.

(** X14: a [create] whose body decodes and validates, with no null tag or
    form and a database that accepts the flush, commits the new corpus (the
    id the database gives, the normalized fields, no files, the user and
    the time) after the stored ones; it answers 200 with it unless creating
    its directory raises, in which case the corpus stays committed and the
    response is the one of the handlers. *)
Theorem create_commits_new_corpus h values_content makeDirectorySafely
    new_corpus_id body s content refs data u resp s' :
  values_content body = Ok content ->
  getFormReferences h content (fresh s) = (Ok refs, fresh s) ->
  corpusSchema h body = Ok data ->
  session_user s = Some u ->
  flush_ok (stored s) = true ->
  Forall (fun t => t <> None) (d_tags data) ->
  Forall (fun f => f <> None) (d_forms data) ->
  (forall p s0 r s1, makeDirectorySafely p s0 = (r, s1) ->
     stored s1 = stored s0 /\ status s1 = status s0) ->
  let c := mkCorpus (new_corpus_id (stored s)) (normalize h (d_name data))
             (normalize h (d_description data)) (normalize h (d_content data))
             (d_formSearch data) (d_tags data) (d_forms data) [] (user_id u)
             (now_ s) in
  request (create h values_content makeDirectorySafely new_corpus_id body) s
    = (resp, s') ->
  stored s' = map_corpora (fun l => l ++ [c]) (stored s) /\
  (resp = (200, Some (RCorpus c)) \/
   exists s0 e s1,
     makeDirectorySafely (getCorpusDirPath h c) s0 = (Raise e, s1) /\
     resp = match e with
            | JSONDecodeError => (400, Some RJSONDecodeError)
            | Invalid => (400, Some (RErrors Invalid))
            | _ => (500, None)
            end).
Proof.
  intros Hv Hg Hd Hu Hok Ht Hf Hm c.
  assert (Hok' : flush_ok (map_corpora (fun l => l ++ [c]) (stored s)) = true).
  { rewrite flush_ok_app, Hok. unfold flush_ok. simpl.
    apply forallb_some_Forall in Ht. apply forallb_some_Forall in Hf.
    rewrite Ht, Hf. reflexivity. }
  unfold request, create, try_except.
  unfold bind at 1, lift at 1. rewrite Hv. unfold ret at 1.
  unfold bind at 1. rewrite Hg.
  unfold bind at 1, lift at 1. rewrite Hd. unfold ret at 1.
  unfold bind at 1, createNewCorpus, get_session_user, bind at 1.
  simpl session_user. rewrite Hu.
  unfold bind at 1, h_now, gets, ret at 1.
  unfold bind at 1, session_add_new. simpl sess.
  assert (Ec : set_id (new_corpus_id (stored s))
                 (mkCorpus 0 (normalize h (d_name data))
                    (normalize h (d_description data))
                    (normalize h (d_content data)) (d_formSearch data)
                    (d_tags data) (d_forms data) [] (user_id u)
                    (now_ (fresh s))) = c) by reflexivity.
  rewrite Ec.
  unfold bind at 1, session_commit. simpl sess. rewrite Hok'.
  unfold bind at 1, createCorpusDir, bind at 1.
  match goal with
  | |- context [makeDirectorySafely ?p ?s0] =>
      destruct (makeDirectorySafely p s0) as [[[]|e] s1] eqn:E
  end;
    destruct (Hm _ _ _ _ E) as [Es Est]; simpl in *.
  - intro H; injection H as <- <-. cbn [stored set_sess status].
    rewrite Es, Est. split; [reflexivity|]. left. reflexivity.
  - intro H. split.
    + destruct e; simpl in H; injection H as _ <-; simpl; exact Es.
    + right. exists (set_stored (map_corpora (fun l => l ++ [c]) (stored s))
                      (set_sess (map_corpora (fun l => l ++ [c]) (stored s))
                                (fresh s))), e, s1.
      split; [exact E|].
      destruct e; simpl in H; injection H as <- _; reflexivity.
Qed.


(** X15: a [create] whose validated tags or forms contain a null fails at
    the commit: it answers 500 and neither the database nor the file system
    changes. *)
Theorem create_null_relation_is_500 h values_content makeDirectorySafely
    new_corpus_id body s content refs data u resp s' :
  values_content body = Ok content ->
  getFormReferences h content (fresh s) = (Ok refs, fresh s) ->
  corpusSchema h body = Ok data ->
  session_user s = Some u ->
  In None (d_tags data) \/ In None (d_forms data) ->
  request (create h values_content makeDirectorySafely new_corpus_id body) s
    = (resp, s') ->
  resp = (500, None) /\ stored s' = stored s /\ fs s' = fs s.
Proof.
  intros Hv Hg Hd Hu Hnone.
  set (c := mkCorpus (new_corpus_id (stored s)) (normalize h (d_name data))
             (normalize h (d_description data)) (normalize h (d_content data))
             (d_formSearch data) (d_tags data) (d_forms data) [] (user_id u)
             (now_ s)).
  assert (Hko : flush_ok (map_corpora (fun l => l ++ [c]) (stored s)) = false).
  { rewrite flush_ok_app. unfold flush_ok at 2. simpl.
    rewrite andb_true_r.
    destruct (forallb _ (d_tags data)) eqn:Ht;
      [destruct (forallb _ (d_forms data)) eqn:Hf|];
      [|rewrite andb_false_r; reflexivity|rewrite andb_false_r; reflexivity].
    exfalso. apply forallb_some_Forall in Ht. apply forallb_some_Forall in Hf.
    rewrite Forall_forall in Ht, Hf.
    destruct Hnone as [H|H]; [exact (Ht _ H eq_refl)|exact (Hf _ H eq_refl)]. }
  unfold request, create, try_except.
  unfold bind at 1, lift at 1. rewrite Hv. unfold ret at 1.
  unfold bind at 1. rewrite Hg.
  unfold bind at 1, lift at 1. rewrite Hd. unfold ret at 1.
  unfold bind at 1, createNewCorpus, get_session_user, bind at 1.
  simpl session_user. rewrite Hu.
  unfold bind at 1, h_now, gets, ret at 1.
  unfold bind at 1, session_add_new. simpl sess.
  assert (Ec : set_id (new_corpus_id (stored s))
                 (mkCorpus 0 (normalize h (d_name data))
                    (normalize h (d_description data))
                    (normalize h (d_content data)) (d_formSearch data)
                    (d_tags data) (d_forms data) [] (user_id u)
                    (now_ (fresh s))) = c) by reflexivity.
  rewrite Ec.
  unfold bind at 1, session_commit. simpl sess. rewrite Hko.
  simpl. intro H. injection H as <- <-. auto.
Qed.


(** ** An update that changes no column *)

Lemma bind_step {A B} (m : M A) (k : A -> M B) s a s1 :
  m s = (Ok a, s1) -> bind m k s = k a s1.
Proof. intro H. unfold bind. rewrite H. reflexivity. Qed.

Lemma setAttr_same {A} eqb get set n (v : A) ch s c :
  find_corpus n (sess s) = Some c -> eqb (get c) v = true ->
  setAttr eqb get set n v ch s = (Ok ch, s).
Proof.
  intros Hc E. unfold setAttr. rewrite (bind_step _ _ _ _ _ (current_spec _ _ _ Hc)).
  rewrite E. reflexivity.
Qed.

Lemma modify_corpus_step n f s c :
  (forall x, c_id (f x) = c_id x) ->
  find_corpus n (sess s) = Some c ->
  exists s', modify_corpus n f s = (Ok tt, s') /\ same_env s s' /\
             find_corpus n (sess s') = Some (f c).
Proof.
  intros Hf Hc. destruct (modify_corpus n f s) as [r s'] eqn:E.
  destruct (modify_corpus_spec _ _ _ _ _ E Hf) as [-> [Henv F]].
  exists s'. rewrite F, Hc. auto.
Qed.

Lemma set_neq_refl l : set_neq l l = false.
Proof.
  unfold set_neq. apply negb_false_iff.
  assert (H : forallb (fun x => existsb (opt_id_eqb x) l) l = true).
  { apply forallb_forall. intros x Hx. apply existsb_exists. exists x.
    split; [exact Hx|]. destruct x; simpl; [apply Z.eqb_refl|reflexivity]. }
  rewrite H. reflexivity.
Qed.

Lemma updateCorpus_unchanged h n data s c :
  find_corpus n (sess s) = Some c ->
  normalize h (d_name data) = c_name c ->
  normalize h (d_description data) = c_description c ->
  normalize h (d_content data) = c_content c ->
  formSearch_eqb (c_formSearch c) (d_formSearch data) = true ->
  Forall (fun t => t <> None) (d_tags data) ->
  Forall (fun f => f <> None) (d_forms data) ->
  exists s', updateCorpus h n data s = (Ok None, s') /\ same_env s s'.
Proof.
  intros Hc En Ed Ect Efs Ht Hf.
  rewrite Forall_forall in Ht, Hf.
  unfold updateCorpus. cbv zeta.
  assert (N1 : String.eqb (c_name c) (normalize h (d_name data)) = true)
    by (rewrite En; apply String.eqb_refl).
  assert (N2 : String.eqb (c_description c) (normalize h (d_description data)) = true)
    by (rewrite Ed; apply String.eqb_refl).
  assert (N3 : String.eqb (c_content c) (normalize h (d_content data)) = true)
    by (rewrite Ect; apply String.eqb_refl).
  rewrite (bind_step _ _ _ _ _ (setAttr_same _ _ set_name _ _ false _ _ Hc N1)).
  rewrite (bind_step _ _ _ _ _ (setAttr_same _ _ set_description _ _ false _ _ Hc N2)).
  rewrite (bind_step _ _ _ _ _ (setAttr_same _ _ set_content _ _ false _ _ Hc N3)).
  rewrite (bind_step _ _ _ _ _ (setAttr_same _ _ set_formSearch _ _ false _ _ Hc Efs)).
  destruct (modify_corpus_step n (set_tags (d_tags data)) s c (fun _ => eq_refl) Hc)
    as [s1 [M1 [E1 F1]]].
  rewrite (bind_step _ _ _ _ _ M1).
  destruct (modify_corpus_step n (set_forms (d_forms data)) s1 _ (fun _ => eq_refl) F1)
    as [s2 [M2 [E2 F2]]].
  rewrite (bind_step _ _ _ _ _ M2).
  rewrite (bind_step _ _ _ _ _ (current_spec _ _ _ F2)).
  rewrite (truthy_all_some _ Hf). cbn [c_forms set_forms]. rewrite set_neq_refl.
  rewrite (bind_step _ _ _ _ _ (eq_refl : ret false s2 = (Ok false, s2))).
  rewrite (bind_step _ _ _ _ _ (current_spec _ _ _ F2)).
  rewrite (truthy_all_some _ Ht). cbn [c_tags set_forms set_tags].
  rewrite set_neq_refl.
  cbn [bind ret]. exists s2. split; [reflexivity|].
  exact (same_env_trans _ _ _ E1 E2).
Qed.

(** X7: an update whose name, description, content and form search match
    the stored corpus and whose tags and forms contain no null is refused
    with 400 "not new", whatever tags and forms it submits: [updateCorpus]
    assigns the submitted tags and forms before comparing them with the
    corpus.  Nothing is stored or written. *)
Theorem update_unchanged_columns_not_new h id n c body data s :
  py_int id = Some n ->
  find_corpus n (stored s) = Some c ->
  corpusSchema h body = Ok data ->
  normalize h (d_name data) = c_name c ->
  normalize h (d_description data) = c_description c ->
  normalize h (d_content data) = c_content c ->
  formSearch_eqb (c_formSearch c) (d_formSearch data) = true ->
  Forall (fun t => t <> None) (d_tags data) ->
  Forall (fun f => f <> None) (d_forms data) ->
  exists s',
    request (update h id body) s = ((400, Some (RError notNewMsg)), s') /\
    stored s' = stored s /\ fs s' = fs s.
Proof.
  intros Hn Hc Hd En Ed Ect Efs Ht Hf.
  assert (Hc' : find_corpus n (sess (fresh s)) = Some c)
    by (rewrite find_corpus_fresh; exact Hc).
  destruct (updateCorpus_unchanged h n data (fresh s) c Hc' En Ed Ect Efs Ht Hf)
    as [s1 [U (Es & Ef & Est & _ & _)]].
  unfold request, update, py_int_m. rewrite Hn.
  rewrite (bind_step _ _ _ _ _ (eq_refl : ret n (fresh s) = (Ok n, fresh s))).
  unfold get_corpus.
  rewrite (bind_step _ _ _ _ _
             (eq_refl : gets (fun s0 => find_corpus n (sess s0)) (fresh s)
                        = (Ok (find_corpus n (sess (fresh s))), fresh s))).
  rewrite Hc'. unfold try_except.
  rewrite Hd.
  rewrite (bind_step _ _ _ _ _ (eq_refl : lift (Ok data) (fresh s) = (Ok data, fresh s))).
  rewrite (find_corpus_id _ _ _ Hc), (bind_step _ _ _ _ _ U). simpl.
  eexists. split; [reflexivity|]. simpl. auto.
Qed.


(** X16: [writetofile] with a format that validates but has no entry in
    [h.corpusFormats] raises [KeyError]: 500, and nothing is stored or
    written. *)
Theorem writetofile_unknown_format_is_500 h id n c body format_ s :
  py_int id = Some n ->
  find_corpus n (stored s) = Some c ->
  corpusFormatSchema h body = Ok format_ ->
  corpusFormats h format_ = None ->
  exists s',
    request (writetofile h id body) s = ((500, None), s') /\
    stored s' = stored s /\ fs s' = fs s.
Proof.
  intros Hn Hc Hd Hf.
  unfold request, writetofile, query_get. rewrite Hn. unfold get_corpus.
  rewrite (bind_step _ _ _ _ _
             (eq_refl : gets (fun s0 => find_corpus n (sess s0)) (fresh s)
                        = (Ok (find_corpus n (sess (fresh s))), fresh s))).
  rewrite find_corpus_fresh, Hc. unfold try_except. rewrite Hd.
  rewrite (bind_step _ _ _ _ _
             (eq_refl : lift (Ok format_) (fresh s) = (Ok format_, fresh s))).
  unfold writeToFile, getCorpusFilePath. rewrite Hf.
  simpl. eexists. split; [reflexivity|]. simpl. auto.
Qed.


Lemma show_edit_find_stored_corpus_witness :
  find_corpus 1 (stored state_plain) = Some corpus_plain /\
  request (show "1"%string) state_plain
    = ((200, Some (RCorpus corpus_plain)),
       set_sess (stored state_plain) (fresh state_plain)).
Proof.
  split; [reflexivity|].
  exact (proj1 (show_edit_find_stored_corpus state_plain 1 corpus_plain eq_refl)).
Defined.

Lemma missing_corpus_is_404_witness :
  py_int "2"%string = Some 2 /\ find_corpus 2 (stored state_plain) = None /\
  fst (request (servefile h0 "2"%string "1"%string) state_plain)
    = (404, Some (RJsonError (notFound "2"%string))).
Proof.
  split; [reflexivity|]. split; [reflexivity|].
  exact (proj1 (proj2 (missing_corpus_is_404 h0 "2"%string 2 EmptyString
                         "1"%string state_plain eq_refl eq_refl))).
Defined.

Lemma update_bad_body_witness :
  py_int "1"%string = Some 1 /\
  find_corpus 1 (stored state_plain) = Some corpus_plain /\
  corpusSchema h_bad_json EmptyString = Raise JSONDecodeError /\
  fst (request (update h_bad_json "1"%string EmptyString) state_plain)
    = (400, Some RJSONDecodeError).
Proof.
  split; [reflexivity|]. split; [reflexivity|]. split; [reflexivity|].
  exact (proj1 (update_bad_body h_bad_json "1"%string 1 corpus_plain EmptyString
                  JSONDecodeError state_plain eq_refl eq_refl eq_refl)).
Defined.

Lemma writetofile_bad_body_witness :
  py_int "1"%string = Some 1 /\
  find_corpus 1 (stored state_plain) = Some corpus_plain /\
  corpusFormatSchema h0 EmptyString = Ok "treebank"%string /\
  corpusFormatSchema h_bad_json EmptyString = Raise JSONDecodeError /\
  fst (request (writetofile h_bad_json "1"%string EmptyString) state_plain)
    = (400, Some RJSONDecodeError).
Proof.
  split; [reflexivity|]. split; [reflexivity|]. split; [reflexivity|].
  split; [reflexivity|].
  exact (proj1 (writetofile_bad_body h_bad_json "1"%string 1 corpus_plain
                  EmptyString JSONDecodeError state_plain eq_refl eq_refl eq_refl)).
Defined.

Lemma update_stores_submitted_data_witness :
  exists s',
    request (update h_renamed "1"%string EmptyString) state_plain
      = ((200, Some (RCorpus (mkCorpus 1 "Corpus renamed" "" "" None [] [] [] 2 20))),
         s') /\
    find_corpus 1 (stored s')
      = Some (mkCorpus 1 "Corpus renamed" "" "" None [] [] [] 2 20).
Proof.
  exists (snd (request (update h_renamed "1"%string EmptyString) state_plain)).
  assert (H : request (update h_renamed "1"%string EmptyString) state_plain
              = ((200, Some (RCorpus (mkCorpus 1 "Corpus renamed" "" "" None
                                        [] [] [] 2 20))),
                 snd (request (update h_renamed "1"%string EmptyString)
                        state_plain))) by reflexivity.
  split; [exact H|].
  destruct (update_stores_submitted_data _ _ _ _ _ _ _ H)
    as (n & c & data & u & Hn & _ & _ & _ & _ & _ & Hf & _).
  injection Hn as <-. exact Hf.
Defined.

Lemma update_unchanged_columns_not_new_witness :
  corpusSchema h_tags_only EmptyString = Ok data_tags_only /\
  c_tags corpus_plain <> d_tags data_tags_only /\
  c_forms corpus_plain <> d_forms data_tags_only /\
  exists s',
    request (update h_tags_only "1"%string EmptyString) state_plain
      = ((400, Some (RError notNewMsg)), s') /\
    stored s' = stored state_plain.
Proof.
  split; [reflexivity|]. split; [discriminate|]. split; [discriminate|].
  assert (Ht : Forall (fun t => t <> None) (d_tags data_tags_only))
    by (repeat constructor; discriminate).
  assert (Hf : Forall (fun f => f <> None) (d_forms data_tags_only))
    by (repeat constructor; discriminate).
  destruct (update_unchanged_columns_not_new h_tags_only "1"%string 1 corpus_plain
              EmptyString data_tags_only state_plain eq_refl eq_refl eq_refl
              eq_refl eq_refl eq_refl eq_refl Ht Hf) as [s' [H1 [H2 _]]].
  exists s'. auto.
Defined.

Lemma delete_removes_corpus_and_directory_witness :
  py_int "1"%string = Some 1 /\
  find_corpus 1 (stored state_plain) = Some corpus_plain /\
  flush_ok (stored state_plain) = true /\
  fst (request (delete h0 "1"%string) state_plain)
    = (200, Some (RCorpusDict corpus_plain)) /\
  fs_lookup corpus_dir (fs (snd (request (delete h0 "1"%string) state_plain)))
    = None.
Proof.
  split; [reflexivity|]. split; [reflexivity|]. split; [reflexivity|].
  destruct (delete_removes_corpus_and_directory h0 "1"%string 1 corpus_plain
              state_plain eq_refl eq_refl eq_refl) as (H1 & _ & _ & H4).
  split; [exact H1|]. rewrite H4. reflexivity.
Defined.

Lemma delete_keeps_other_corpus_directories_witness :
  py_int "1"%string = Some 1 /\
  find_corpus 1 (stored state_two_dirs) = Some corpus_plain /\
  flush_ok (stored state_two_dirs) = true /\
  c_id corpus_12 <> 1 /\
  fs_lookup (getCorpusDirPath h0 corpus_12 ++ "/corpus_12.tbk")
            (fs (snd (request (delete h0 "1"%string) state_two_dirs)))
    = Some (File EmptyString).
Proof.
  assert (Hne : c_id corpus_12 <> 1) by (intro H; discriminate H).
  split; [reflexivity|]. split; [reflexivity|]. split; [reflexivity|].
  split; [exact Hne|].
  rewrite (delete_keeps_other_corpus_directories h0 "1"%string 1 corpus_plain
             state_two_dirs corpus_12 "/corpus_12.tbk" eq_refl eq_refl eq_refl Hne
             (or_intror (ex_intro _ "corpus_12.tbk"%string eq_refl))).
  reflexivity.
Defined.


Lemma servefile_never_400_witness :
  py_int "x"%string = None /\
  (fst (request (servefile h0 "1"%string "x"%string) state_written)
     = (404, Some (RJsonError (notFound "1"%string))) \/
   fst (request (servefile h0 "1"%string "x"%string) state_written) = (500, None) \/
   fst (request (servefile h0 "1"%string "x"%string) state_written)
     = (403, Some RUnauthorized) \/
   exists p, fst (request (servefile h0 "1"%string "x"%string) state_written)
             = (200, Some (RFile p))).
Proof.
  split; [reflexivity|].
  destruct (servefile_never_400 h0 "1"%string "x"%string state_written _ _
              (surjective_pairing _)) as (_ & _ & H).
  exact H.
Defined.

Lemma getCorpusFilePath_split_witness :
  corpusFormats h0 "treebank"%string = Some example_format /\
  exists p,
    getCorpusFilePath h0 corpus_written "treebank"%string state_written
      = (Ok p, state_written) /\
    os_path_split p = (corpus_dir, "corpus_1.tbk"%string).
Proof.
  assert (N1 : ~ In "/"%char (list_ascii_of_string (suffix example_format)))
    by (intro H; destruct H).
  assert (N2 : ~ In "/"%char (list_ascii_of_string (extension example_format)))
    by (intros [H|[H|[H|[]]]]; discriminate H).
  split; [reflexivity|].
  destruct (getCorpusFilePath_split h0 corpus_written "treebank"%string
              example_format state_written eq_refl N1 N2) as [p [H1 H2]].
  exists p. split; [exact H1 | exact H2].
Defined.

Lemma create_commits_new_corpus_witness :
  corpusSchema h_renamed EmptyString = Ok data_renamed /\
  stored (snd (request (create h_renamed no_content make_dir max_id_plus_one
                          EmptyString) state_plain))
    = mkDb [corpus_plain; mkCorpus 2 "Corpus renamed" "" "" None [] [] [] 2 20]
           [form7; form8] [] /\
  fst (request (create h_renamed no_content make_dir max_id_plus_one EmptyString)
         state_plain)
    = (200, Some (RCorpus (mkCorpus 2 "Corpus renamed" "" "" None [] [] [] 2 20))).
Proof.
  assert (Hm : forall p s0 r s1, make_dir p s0 = (r, s1) ->
                 stored s1 = stored s0 /\ status s1 = status s0)
    by (intros p s0 r s1 H; injection H as <- <-; split; reflexivity).
  split; [reflexivity|].
  destruct (create_commits_new_corpus h_renamed no_content make_dir max_id_plus_one
              EmptyString state_plain EmptyString [] data_renamed contributor2 _ _
              eq_refl eq_refl eq_refl eq_refl eq_refl (Forall_nil _) (Forall_nil _)
              Hm (surjective_pairing _)) as [Hs Hr].
  split; [exact Hs|].
  destruct Hr as [Hr | (s0 & e & s1 & Hmk & _)]; [exact Hr|].
  discriminate Hmk.
Defined.

Lemma create_null_relation_is_500_witness :
  corpusSchema h_null_tag EmptyString = Ok data_null_tag /\
  In None (d_tags data_null_tag) /\
  fst (request (create h_null_tag no_content make_dir max_id_plus_one EmptyString)
         state_plain) = (500, None) /\
  stored (snd (request (create h_null_tag no_content make_dir max_id_plus_one
                          EmptyString) state_plain)) = stored state_plain.
Proof.
  split; [reflexivity|]. split; [left; reflexivity|].
  destruct (create_null_relation_is_500 h_null_tag no_content make_dir
              max_id_plus_one EmptyString state_plain EmptyString [] data_null_tag
              contributor2 _ _ eq_refl eq_refl eq_refl eq_refl
              (or_introl (or_introl eq_refl)) (surjective_pairing _))
    as (H1 & H2 & _).
  auto.
Defined.

Lemma writetofile_unknown_format_is_500_witness :
  corpusFormatSchema h_latex EmptyString = Ok "latex"%string /\
  corpusFormats h_latex "latex"%string = None /\
  exists s',
    request (writetofile h_latex "1"%string EmptyString) state_plain
      = ((500, None), s') /\ fs s' = fs state_plain.
Proof.
  split; [reflexivity|]. split; [reflexivity|].
  destruct (writetofile_unknown_format_is_500 h_latex "1"%string 1 corpus_plain
              EmptyString "latex"%string state_plain eq_refl eq_refl eq_refl eq_refl)
    as [s' [H1 [_ H3]]].
  exists s'. auto.
Defined.
